(** * The Axis controller of the ODrive firmware (Firmware/MotorControl/axis.cpp)

    A shallow embedding of the per-axis state machine, its control-loop
    handlers, the homing sub-machine that runs inside the closed-loop tick
    and the step/direction input, followed by the properties the
    specification states about them.

    Conventions of the embedding.
    - [float] is IEEE-754 binary32, computed with the Standard Library's
      executable specification of floating-point arithmetic (precision 24,
      exponent bound 128, round to nearest even).
    - [int32_t], [uint32_t] and [int] values are integers in [Z]; the
      arithmetic the source performs on them is written with its wrap-around.
    - [task_chain_] is a list updated by index; [current_state_] is the C++
      reference to [task_chain_[0]].
    - Code that blocks on the current-measurement signal consumes a trace of
      inputs, one per control cycle, and returns an [Outcome]: it has either
      returned, or is still blocked when the trace ends.
    - Functions, constants and enumerator values of the repository that
      axis.cpp uses but does not define (the collaborators' methods, the
      board's globals, the contents of axis.hpp) are fields of the class
      [Collaborators]; nothing is assumed about them beyond their types. *)

From Stdlib Require Import ZArith Bool Lia SpecFloat.
From stdpp Require Import base list.

Local Open Scope Z_scope.

(** ** Single-precision floating point *)

Module F32.

Definition prec : Z := 24.
Definition emax : Z := 128.

Definition float : Type := spec_float.

Definition add : float -> float -> float := SFadd prec emax.
Definition mul : float -> float -> float := SFmul prec emax.
Definition div : float -> float -> float := SFdiv prec emax.
Definition neg : float -> float := SFopp.
Definition eqb : float -> float -> bool := SFeqb.
Definition ltb : float -> float -> bool := SFltb.
Definition leb : float -> float -> bool := SFleb.

(** Conversion of an integer to [float] (exact below 2^24 in magnitude,
    rounded to nearest even above). *)
Definition of_int (n : Z) : float := binary_normalize prec emax n 0 false.

Definition zero : float := S754_zero false.
Definition one : float := of_int 1.

(** The values a [float] variable can hold: mantissa and exponent of a
    finite value are in canonical form. *)
Definition valid (x : float) : bool := valid_binary prec emax x.

Definition INT32_MIN : Z := - 2 ^ 31.
Definition INT32_MAX : Z := 2 ^ 31 - 1.

(** Conversion of a [float] to [int32_t]: the fractional part is dropped
    (rounding toward zero).  Values outside the range of [int32_t] are
    undefined behaviour in C++; the model gives what the target's
    conversion instruction gives: saturation, and 0 for a NaN. *)
Definition to_int32 (x : float) : Z :=
  match x with
  | S754_zero _ => 0
  | S754_nan => 0
  | S754_infinity s => if s then INT32_MIN else INT32_MAX
  | S754_finite s m e =>
      let mag := Z.shiftl (Zpos m) e in
      Z.max INT32_MIN (Z.min INT32_MAX (if s then - mag else mag))
  end.

End F32.

Abbreviation float := F32.float.

(** Two's-complement wrap-around of 32-bit arithmetic. *)
Definition wrap_u32 (n : Z) : Z := n mod 2 ^ 32.
Definition wrap_i32 (n : Z) : Z := (n + 2 ^ 31) mod 2 ^ 32 - 2 ^ 31.

(** ** Enumerations *)

(** [Axis::State_t].  The enumerators' integer values are declared in
    axis.hpp; they enter through [state_rank] below. *)
Inductive State_t : Set :=
  | AXIS_STATE_UNDEFINED
  | AXIS_STATE_IDLE
  | AXIS_STATE_STARTUP_SEQUENCE
  | AXIS_STATE_FULL_CALIBRATION_SEQUENCE
  | AXIS_STATE_MOTOR_CALIBRATION
  | AXIS_STATE_ENCODER_INDEX_SEARCH
  | AXIS_STATE_ENCODER_OFFSET_CALIBRATION
  | AXIS_STATE_HOMING
  | AXIS_STATE_CLOSED_LOOP_CONTROL
  | AXIS_STATE_SENSORLESS_CONTROL.

#[global] Instance State_t_eq_dec : EqDecision State_t.
Proof. solve_decision. Defined.

Inductive HomingState_t : Set :=
  | HOMING_STATE_INACTIVE
  | HOMING_STATE_HOMING
  | HOMING_STATE_MOVE_TO_ZERO.

Inductive ControlMode_t : Set :=
  | CTRL_MODE_CURRENT_CONTROL
  | CTRL_MODE_VELOCITY_CONTROL
  | CTRL_MODE_POSITION_CONTROL
  | CTRL_MODE_TRAJECTORY_CONTROL.

Inductive GPIO_PinState : Set := GPIO_PIN_RESET | GPIO_PIN_SET.

(** ** Data model *)

(** [Endstop::Config_t] and [Endstop], as endstop.hpp declares them. *)
Record EndstopConfig : Type := {
  gpio_num : Z;
  enabled : bool;
  offset : Z;
  is_active_high : bool;
  debounce_ms : float;
  home_percentage : float;
  physical_endstop : bool;
  min_ms_homing : Z
}.

Record Endstop : Type := {
  es_config_ : EndstopConfig;
  endstop_state_ : bool;
  offset_from_home : Z;
  pin_state_ : bool;
  debounce_timer_ : float
}.

(** The members of the collaborators that axis.cpp reads or writes. *)
Record Encoder : Type := {
  enc_use_index : bool;
  enc_cpr : Z;
  enc_is_ready_ : bool;
  enc_pos_estimate_ : float;
  enc_vel_estimate_ : float;
  enc_phase_ : float;
  enc_shadow_count_ : Z
}.

Record SensorlessEstimator : Type := {
  sl_pll_pos_ : float;
  sl_vel_estimate_ : float;
  sl_phase_ : float
}.

Record Controller : Type := {
  control_mode : ControlMode_t;
  homing_speed : float;
  pos_setpoint_ : float;
  vel_setpoint_ : float;
  vel_integrator_current_ : float;
  traj_start_loop_count_ : Z
}.

Record Motor : Type := {
  is_calibrated_ : bool;
  armed_state_ : Z
}.

(** [Axis::Config_t]. *)
Record Config_t : Type := {
  startup_motor_calibration : bool;
  startup_encoder_index_search : bool;
  startup_encoder_offset_calibration : bool;
  startup_closed_loop_control : bool;
  startup_sensorless_control : bool;
  startup_homing : bool;
  enable_step_dir : bool;
  counts_per_step : float;
  ramp_up_time : float;
  ramp_up_distance : float;
  spin_up_current : float;
  spin_up_acceleration : float;
  spin_up_target_vel : float
}.

(** One axis together with its collaborators.  [finding_min_endstop] and
    [loop_counter_check] are the two file-level variables of axis.cpp.
    [periph_] stands for the state of the collaborators and of the hardware
    that axis.cpp never names; only the collaborators' own methods see it. *)
Record Axis {Periph : Type} : Type := {
  config_ : Config_t;
  encoder_ : Encoder;
  sensorless_estimator_ : SensorlessEstimator;
  controller_ : Controller;
  motor_ : Motor;
  min_endstop_ : Endstop;
  max_endstop_ : Endstop;
  error_ : Z;
  enable_step_dir_ : bool;
  requested_state_ : State_t;
  task_chain_ : list State_t;
  homing_state_ : HomingState_t;
  loop_counter_ : Z;
  finding_min_endstop : bool;
  loop_counter_check : Z;
  periph_ : Periph
}.
Arguments Axis : clear implicits.
Arguments Build_Axis {Periph}.

(** *** Field updates *)

Definition with_offset_from_home (n : Z) (e : Endstop) : Endstop :=
  {| es_config_ := es_config_ e; endstop_state_ := endstop_state_ e;
     offset_from_home := n; pin_state_ := pin_state_ e;
     debounce_timer_ := debounce_timer_ e |}.

Definition with_control_mode (m : ControlMode_t) (c : Controller) : Controller :=
  {| control_mode := m; homing_speed := homing_speed c;
     pos_setpoint_ := pos_setpoint_ c; vel_setpoint_ := vel_setpoint_ c;
     vel_integrator_current_ := vel_integrator_current_ c;
     traj_start_loop_count_ := traj_start_loop_count_ c |}.

Definition with_pos_setpoint (x : float) (c : Controller) : Controller :=
  {| control_mode := control_mode c; homing_speed := homing_speed c;
     pos_setpoint_ := x; vel_setpoint_ := vel_setpoint_ c;
     vel_integrator_current_ := vel_integrator_current_ c;
     traj_start_loop_count_ := traj_start_loop_count_ c |}.

Definition with_vel_setpoint (x : float) (c : Controller) : Controller :=
  {| control_mode := control_mode c; homing_speed := homing_speed c;
     pos_setpoint_ := pos_setpoint_ c; vel_setpoint_ := x;
     vel_integrator_current_ := vel_integrator_current_ c;
     traj_start_loop_count_ := traj_start_loop_count_ c |}.

Definition with_vel_integrator_current (x : float) (c : Controller) : Controller :=
  {| control_mode := control_mode c; homing_speed := homing_speed c;
     pos_setpoint_ := pos_setpoint_ c; vel_setpoint_ := vel_setpoint_ c;
     vel_integrator_current_ := x;
     traj_start_loop_count_ := traj_start_loop_count_ c |}.

Definition with_traj_start_loop_count (n : Z) (c : Controller) : Controller :=
  {| control_mode := control_mode c; homing_speed := homing_speed c;
     pos_setpoint_ := pos_setpoint_ c; vel_setpoint_ := vel_setpoint_ c;
     vel_integrator_current_ := vel_integrator_current_ c;
     traj_start_loop_count_ := n |}.

Section AxisUpdates.
Context {Periph : Type}.
Implicit Type ax : Axis Periph.

Definition with_config (v : Config_t) ax : Axis Periph :=
  let 'Build_Axis _ b d c f g h i j k l m n o p q := ax in
  Build_Axis v b d c f g h i j k l m n o p q.

Definition with_encoder (e : Encoder) ax : Axis Periph :=
  let 'Build_Axis a _ d c f g h i j k l m n o p q := ax in
  Build_Axis a e d c f g h i j k l m n o p q.

Definition with_motor (v : Motor) ax : Axis Periph :=
  let 'Build_Axis a b d c _ g h i j k l m n o p q := ax in
  Build_Axis a b d c v g h i j k l m n o p q.

Definition with_periph (v : Periph) ax : Axis Periph :=
  let 'Build_Axis a b d c f g h i j k l m n o p _ := ax in
  Build_Axis a b d c f g h i j k l m n o p v.

Definition with_controller (c : Controller) ax : Axis Periph :=
  let 'Build_Axis a b d _ f g h i j k l m n o p q := ax in
  Build_Axis a b d c f g h i j k l m n o p q.

Definition with_min_endstop (e : Endstop) ax : Axis Periph :=
  let 'Build_Axis a b d c f _ h i j k l m n o p q := ax in
  Build_Axis a b d c f e h i j k l m n o p q.

Definition with_max_endstop (e : Endstop) ax : Axis Periph :=
  let 'Build_Axis a b d c f g _ i j k l m n o p q := ax in
  Build_Axis a b d c f g e i j k l m n o p q.

Definition with_error (e : Z) ax : Axis Periph :=
  let 'Build_Axis a b d c f g h _ j k l m n o p q := ax in
  Build_Axis a b d c f g h e j k l m n o p q.

Definition with_enable_step_dir (v : bool) ax : Axis Periph :=
  let 'Build_Axis a b d c f g h i _ k l m n o p q := ax in
  Build_Axis a b d c f g h i v k l m n o p q.

Definition with_requested_state (s : State_t) ax : Axis Periph :=
  let 'Build_Axis a b d c f g h i j _ l m n o p q := ax in
  Build_Axis a b d c f g h i j s l m n o p q.

Definition with_task_chain (tc : list State_t) ax : Axis Periph :=
  let 'Build_Axis a b d c f g h i j k _ m n o p q := ax in
  Build_Axis a b d c f g h i j k tc m n o p q.

Definition with_homing_state (s : HomingState_t) ax : Axis Periph :=
  let 'Build_Axis a b d c f g h i j k l _ n o p q := ax in
  Build_Axis a b d c f g h i j k l s n o p q.

Definition with_loop_counter (v : Z) ax : Axis Periph :=
  let 'Build_Axis a b d c f g h i j k l m _ o p q := ax in
  Build_Axis a b d c f g h i j k l m v o p q.

Definition with_finding_min_endstop (v : bool) ax : Axis Periph :=
  let 'Build_Axis a b d c f g h i j k l m n _ p q := ax in
  Build_Axis a b d c f g h i j k l m n v p q.

Definition with_loop_counter_check (v : Z) ax : Axis Periph :=
  let 'Build_Axis a b d c f g h i j k l m n o _ q := ax in
  Build_Axis a b d c f g h i j k l m n o v q.

(** [current_state_] is declared as a reference to [task_chain_[0]]:
    reading it reads the head of the chain, assigning it overwrites the
    head. *)
Definition current_state_ ax : State_t :=
  default AXIS_STATE_UNDEFINED (task_chain_ ax !! 0%nat).

Definition set_current_state (s : State_t) ax : Axis Periph :=
  with_task_chain (<[0%nat := s]> (task_chain_ ax)) ax.

End AxisUpdates.

(** ** Outcomes of blocking code, and the collaborators *)

Section AxisModel.
Context {Input Periph : Type}.

(** A call that waits for current-measurement signals either returns a
    value, the axis it leaves and the inputs it did not consume, or is
    still blocked on the signal when the trace of inputs ends. *)
Inductive Outcome (A : Type) : Type :=
  | Done (a : A) (ax : Axis Periph) (rest : list Input)
  | Blocked (ax : Axis Periph).
Arguments Done {A}.
Arguments Blocked {A}.

(** The axis as a call has left it so far. *)
Definition outcome_axis {A : Type} (o : Outcome A) : Axis Periph :=
  match o with
  | Done _ ax _ => ax
  | Blocked ax => ax
  end.

(** What axis.cpp uses without defining it.  Each collaborator holds a
    back-pointer to its axis (and reports errors into [error_] through
    it), so its methods are transformers of the whole axis. *)
Class Collaborators : Type := {
  (* enumerator values: Axis::State_t, Controller::ControlMode_t,
     Axis::Error_t, Motor::ArmedState_t *)
  state_rank : State_t -> Z;
  ctrl_mode_rank : ControlMode_t -> Z;
  ERROR_NONE : Z;
  ERROR_INVALID_STATE : Z;
  ERROR_DC_BUS_UNDER_VOLTAGE : Z;
  ERROR_DC_BUS_OVER_VOLTAGE : Z;
  ERROR_CONTROL_LOOP_MISSED : Z;
  ERROR_BRAKE_RESISTOR_DISARMED : Z;
  ERROR_MOTOR_DISARMED : Z;
  ERROR_MOTOR_FAILED : Z;
  ERROR_CONTROLLER_FAILED : Z;
  ERROR_POS_CTRL_DURING_SENSORLESS : Z;
  ERROR_MIN_ENDSTOP_PRESSED : Z;
  ERROR_MAX_ENDSTOP_PRESSED : Z;
  ARMED_STATE_DISARMED : Z;
  (* timing constants *)
  CURRENT_MEAS_HZ : Z;
  current_meas_period : float;
  (* board-wide globals, as one control cycle finds them *)
  brake_resistor_armed : Input -> bool;
  vbus_voltage : Input -> float;
  dc_bus_undervoltage_trip_level : float;
  dc_bus_overvoltage_trip_level : float;
  (* scheduler and telemetry link: whether the signal arrived before the
     timeout, and what another thread wrote to requested_state_ *)
  signal_received : Input -> bool;
  requested_write : Input -> option State_t;
  (* utils *)
  wrap_pm_pi : float -> float;
  (* Motor *)
  motor_arm : Axis Periph -> bool * Axis Periph;
  motor_update : float -> float -> Axis Periph -> bool * Axis Periph;
  motor_do_checks : Axis Periph -> Axis Periph;
  motor_run_calibration : list Input -> Axis Periph -> Outcome bool;
  safety_critical_disarm_motor_pwm : Axis Periph -> Axis Periph;
  (* Encoder *)
  encoder_update : Input -> Axis Periph -> Axis Periph;
  encoder_do_checks : Axis Periph -> Axis Periph;
  encoder_run_index_search : list Input -> Axis Periph -> Outcome bool;
  encoder_run_offset_calibration : list Input -> Axis Periph -> Outcome bool;
  encoder_set_linear_count : Z -> Axis Periph -> Axis Periph;
  (* SensorlessEstimator *)
  sensorless_estimator_update : Input -> Axis Periph -> Axis Periph;
  (* Controller *)
  controller_update : float -> float -> Axis Periph -> bool * float * Axis Periph;
  controller_home_axis : list Input -> Axis Periph -> Outcome bool;
  controller_set_vel_setpoint : float -> float -> Axis Periph -> Axis Periph;
  controller_set_pos_setpoint : float -> float -> float -> Axis Periph -> Axis Periph;
  (* TrapezoidalTrajectory *)
  planTrapezoidal :
    float -> float -> float -> float -> float -> float -> Axis Periph -> Axis Periph;
  (* Endstop *)
  min_endstop_update : Input -> Axis Periph -> Axis Periph;
  max_endstop_update : Input -> Axis Periph -> Axis Periph;
  getEndstopState : Endstop -> bool
}.

Context {C : Collaborators}.
Implicit Type ax : Axis Periph.

(** [error_ |= e] *)
Definition or_error (e : Z) ax : Axis Periph :=
  with_error (Z.lor (error_ ax) e) ax.

(** Modelled from the spec: [Axis::check_for_errors] (axis.hpp is not part
    of the sources) returns true iff [error_] is [ERROR_NONE]. *)
Definition check_for_errors ax : bool := error_ ax =? ERROR_NONE.

(** *** Step/direction input *)

Definition step_cb (dir_pin : GPIO_PinState) ax : Axis Periph :=
  if enable_step_dir_ ax then
    let dir := match dir_pin with
               | GPIO_PIN_SET => F32.one
               | GPIO_PIN_RESET => F32.neg F32.one
               end in
    with_controller
      (with_pos_setpoint
         (F32.add (pos_setpoint_ (controller_ ax))
                  (F32.mul dir (counts_per_step (config_ ax))))
         (controller_ ax)) ax
  else ax.

(** The GPIO set-up and the (un)subscription of the step pin act on the
    pin hardware only; what remains in the axis is the flag. *)
Definition set_step_dir_enabled (enable : bool) ax : Axis Periph :=
  with_enable_step_dir enable ax.

(** *** Per-cycle checks and updates *)

Definition do_checks (i : Input) ax : bool * Axis Periph :=
  let ax := if negb (brake_resistor_armed i)
            then or_error ERROR_BRAKE_RESISTOR_DISARMED ax else ax in
  let ax := if negb (bool_decide (current_state_ ax = AXIS_STATE_IDLE))
               && (armed_state_ (motor_ ax) =? ARMED_STATE_DISARMED)
            then or_error ERROR_MOTOR_DISARMED ax else ax in
  let ax := if negb (F32.leb dc_bus_undervoltage_trip_level (vbus_voltage i))
            then or_error ERROR_DC_BUS_UNDER_VOLTAGE ax else ax in
  let ax := if negb (F32.leb (vbus_voltage i) dc_bus_overvoltage_trip_level)
            then or_error ERROR_DC_BUS_OVER_VOLTAGE ax else ax in
  let ax := motor_do_checks ax in
  let ax := encoder_do_checks ax in
  (check_for_errors ax, ax).

Definition do_updates (i : Input) ax : bool * Axis Periph :=
  let ax := encoder_update i ax in
  let ax := sensorless_estimator_update i ax in
  let ax := min_endstop_update i ax in
  let ax := max_endstop_update i ax in
  (check_for_errors ax, ax).

(** Modelled from the spec: [Axis::run_control_loop], a template of
    axis.hpp, which is not part of the sources.  Per cycle it (1) waits for
    the current-measurement signal, (2) on a missed signal sets
    ControlLoopMissed and returns unless the axis is idle, (3) increments
    [loop_counter_], (4) calls [do_updates], (5) calls [do_checks], (6)
    returns if either reported errors, (7) runs the tick body, and (8)
    returns when the body returned false or a state request is pending.
    [L] is the state of the local variables the body captures by
    reference.  Writes of other threads to [requested_state_] take effect
    while the worker waits. *)
Fixpoint run_control_loop {L : Type}
    (body : L -> Axis Periph -> bool * L * Axis Periph)
    (tr : list Input) (l : L) ax : Outcome L :=
  match tr with
  | [] => Blocked ax
  | i :: tr' =>
      let ax := match requested_write i with
                | Some s => with_requested_state s ax
                | None => ax
                end in
      if negb (signal_received i)
         && negb (bool_decide (current_state_ ax = AXIS_STATE_IDLE))
      then Done l (or_error ERROR_CONTROL_LOOP_MISSED ax) tr'
      else
        let ax := with_loop_counter (wrap_u32 (loop_counter_ ax + 1)) ax in
        let '(updates_ok, ax) := do_updates i ax in
        let '(checks_ok, ax) := do_checks i ax in
        if negb (updates_ok && checks_ok) then Done l ax tr'
        else
          let '(continue, l, ax) := body l ax in
          if negb continue
             || negb (bool_decide (requested_state_ ax = AXIS_STATE_UNDEFINED))
          then Done l ax tr'
          else run_control_loop body tr' l ax
  end.

(** A tick body that captures no local variable. *)
Definition no_locals (body : Axis Periph -> bool * Axis Periph)
    (l : unit) ax : bool * unit * Axis Periph :=
  let '(continue, ax) := body ax in (continue, l, ax).

(** *** Sensorless spin-up *)

(** Early spin-up: spiral up the current.  The captured local is [x]. *)
Definition spin_up_early_tick (x : float) ax : bool * float * Axis Periph :=
  let phase := wrap_pm_pi (F32.mul (ramp_up_distance (config_ ax)) x) in
  let I_mag := F32.mul (spin_up_current (config_ ax)) x in
  let x := F32.add x (F32.div current_meas_period (ramp_up_time (config_ ax))) in
  let '(ok, ax) := motor_update I_mag phase ax in
  if negb ok then (false, x, or_error ERROR_MOTOR_FAILED ax)
  else (F32.ltb x F32.one, x, ax).

(** Late spin-up: accelerate.  The captured locals are [vel] and [phase]. *)
Definition spin_up_late_tick (l : float * float) ax
    : bool * (float * float) * Axis Periph :=
  let '(vel, phase) := l in
  let vel := F32.add vel (F32.mul (spin_up_acceleration (config_ ax))
                                  current_meas_period) in
  let phase := wrap_pm_pi (F32.add phase (F32.mul vel current_meas_period)) in
  let I_mag := spin_up_current (config_ ax) in
  let '(ok, ax) := motor_update I_mag phase ax in
  if negb ok then (false, (vel, phase), or_error ERROR_MOTOR_FAILED ax)
  else (F32.ltb vel (spin_up_target_vel (config_ ax)), (vel, phase), ax).

Definition run_sensorless_spin_up (tr : list Input) ax : Outcome bool :=
  match run_control_loop spin_up_early_tick tr F32.zero ax with
  | Blocked ax => Blocked ax
  | Done _ ax tr =>
      if negb (error_ ax =? ERROR_NONE) then Done false ax tr
      else
        let vel := F32.div (ramp_up_distance (config_ ax))
                           (ramp_up_time (config_ ax)) in
        let phase := wrap_pm_pi (ramp_up_distance (config_ ax)) in
        match run_control_loop spin_up_late_tick tr (vel, phase) ax with
        | Blocked ax => Blocked ax
        | Done _ ax tr =>
            let ax := with_controller
                        (with_vel_setpoint (spin_up_target_vel (config_ ax))
                                           (controller_ ax)) ax in
            Done (check_for_errors ax) ax tr
        end
  end.

(** *** Sensorless control *)

Definition sensorless_tick ax : bool * Axis Periph :=
  if ctrl_mode_rank CTRL_MODE_POSITION_CONTROL
     <=? ctrl_mode_rank (control_mode (controller_ ax))
  then (false, or_error ERROR_POS_CTRL_DURING_SENSORLESS ax)
  else
    let '(ok, current_setpoint, ax) :=
      controller_update (sl_pll_pos_ (sensorless_estimator_ ax))
                        (sl_vel_estimate_ (sensorless_estimator_ ax)) ax in
    if negb ok then (false, or_error ERROR_CONTROLLER_FAILED ax)
    else
      let '(ok, ax) :=
        motor_update current_setpoint (sl_phase_ (sensorless_estimator_ ax)) ax in
      if negb ok then (false, ax) else (true, ax).

Definition run_sensorless_control_loop (tr : list Input) ax : Outcome bool :=
  let ax := set_step_dir_enabled (enable_step_dir (config_ ax)) ax in
  match run_control_loop (no_locals sensorless_tick) tr tt ax with
  | Blocked ax => Blocked ax
  | Done _ ax tr =>
      let ax := set_step_dir_enabled false ax in
      Done (check_for_errors ax) ax tr
  end.

(** *** Closed-loop control and the homing sub-machine *)

(** [loop_counter_ + (CURRENT_MEAS_HZ * min_ms_homing) / 1000], stored in
    an [unsigned int]. *)
Definition homing_deadline (loop_counter ms : Z) : Z :=
  wrap_u32 (loop_counter + Z.quot (CURRENT_MEAS_HZ * ms) 1000).

Definition current_endstop ax : Endstop :=
  if finding_min_endstop ax then min_endstop_ ax else max_endstop_ ax.

Definition found_end ax : bool :=
  F32.eqb (enc_vel_estimate_ (encoder_ ax)) F32.zero
  && (loop_counter_check ax <=? loop_counter_ ax).

(** The transition out of the seek-min phase. *)
Definition homing_min_found ax : Axis Periph :=
  let ms := min_ms_homing (es_config_ (current_endstop ax)) in
  let ax := with_min_endstop
              (with_offset_from_home (enc_shadow_count_ (encoder_ ax))
                                     (min_endstop_ ax)) ax in
  let ax := with_finding_min_endstop false ax in
  let ax := with_loop_counter_check (homing_deadline (loop_counter_ ax) ms) ax in
  if enabled (es_config_ (max_endstop_ ax)) then
    let ax := with_controller
                (with_vel_integrator_current F32.zero (controller_ ax)) ax in
    controller_set_vel_setpoint (homing_speed (controller_ ax)) F32.zero ax
  else
    let ax := encoder_set_linear_count (offset (es_config_ (min_endstop_ ax))) ax in
    let ax := controller_set_pos_setpoint F32.zero F32.zero F32.zero ax in
    with_homing_state HOMING_STATE_MOVE_TO_ZERO ax.

Definition total_cpr ax : Z :=
  wrap_i32 (enc_shadow_count_ (encoder_ ax) - offset_from_home (min_endstop_ ax)).

(** [-(total_cpr * 1.0f) * (home_percentage / 100.0f)], converted to the
    [int32_t] it is assigned to. *)
Definition percentage_offset (total : Z) (percentage : float) : Z :=
  F32.to_int32
    (F32.mul (F32.neg (F32.mul (F32.of_int total) F32.one))
             (F32.div percentage (F32.of_int 100))).

(** The transition out of the seek-max phase. *)
Definition homing_max_found ax : Axis Periph :=
  let total := total_cpr ax in
  let ax :=
    if F32.ltb F32.zero (home_percentage (es_config_ (min_endstop_ ax))) then
      let ax := with_min_endstop
                  (with_offset_from_home
                     (percentage_offset total
                        (home_percentage (es_config_ (min_endstop_ ax))))
                     (min_endstop_ ax)) ax in
      let ax := with_max_endstop
                  (with_offset_from_home
                     (wrap_i32 (total + offset_from_home (min_endstop_ ax)))
                     (max_endstop_ ax)) ax in
      encoder_set_linear_count
        (wrap_i32 (- offset_from_home (min_endstop_ ax))) ax
    else
      let ax := with_min_endstop
                  (with_offset_from_home (offset (es_config_ (min_endstop_ ax)))
                                         (min_endstop_ ax)) ax in
      let ax := with_max_endstop
                  (with_offset_from_home
                     (wrap_i32 (total + offset_from_home (min_endstop_ ax)))
                     (max_endstop_ ax)) ax in
      encoder_set_linear_count (offset (es_config_ (min_endstop_ ax))) ax in
  let ax := controller_set_pos_setpoint F32.zero F32.zero F32.zero ax in
  with_homing_state HOMING_STATE_MOVE_TO_ZERO ax.

(** The part of the closed-loop tick body that follows the controller and
    motor updates.  (The source's test of [found_end] against a
    non-physical endstop has an empty body and is left out.) *)
Definition homing_tick ax : bool * Axis Periph :=
  match homing_state_ ax with
  | HOMING_STATE_HOMING =>
      if getEndstopState (current_endstop ax) || found_end ax then
        if finding_min_endstop ax
        then (true, homing_min_found ax)
        else (true, homing_max_found ax)
      else (true, ax)
  | HOMING_STATE_MOVE_TO_ZERO =>
      if negb (getEndstopState (min_endstop_ ax)) then
        let quarter := F32.div (homing_speed (controller_ ax)) (F32.of_int 4) in
        let ax := planTrapezoidal F32.zero
                    (enc_pos_estimate_ (encoder_ ax))
                    (enc_vel_estimate_ (encoder_ ax))
                    (homing_speed (controller_ ax)) quarter quarter ax in
        let ax := with_controller
                    (with_traj_start_loop_count (loop_counter_ ax)
                                                (controller_ ax)) ax in
        let ax := with_controller
                    (with_control_mode CTRL_MODE_TRAJECTORY_CONTROL
                                       (controller_ ax)) ax in
        (true, ax)
      else (true, ax)
  | HOMING_STATE_INACTIVE =>
      if enabled (es_config_ (min_endstop_ ax))
         && getEndstopState (min_endstop_ ax)
      then (false, or_error ERROR_MIN_ENDSTOP_PRESSED ax)
      else if enabled (es_config_ (max_endstop_ ax))
              && getEndstopState (max_endstop_ ax)
      then (false, or_error ERROR_MAX_ENDSTOP_PRESSED ax)
      else (true, ax)
  end.

Definition closed_loop_tick ax : bool * Axis Periph :=
  let '(ok, current_setpoint, ax) :=
    controller_update (enc_pos_estimate_ (encoder_ ax))
                      (enc_vel_estimate_ (encoder_ ax)) ax in
  if negb ok then (false, or_error ERROR_CONTROLLER_FAILED ax)
  else
    let '(ok, ax) := motor_update current_setpoint (enc_phase_ (encoder_ ax)) ax in
    if negb ok then (false, ax) else homing_tick ax.

Definition run_closed_loop_control_loop (tr : list Input) ax : Outcome bool :=
  let ax := set_step_dir_enabled (enable_step_dir (config_ ax)) ax in
  let ax := with_finding_min_endstop true ax in
  let ax := with_loop_counter_check
              (homing_deadline (loop_counter_ ax)
                               (min_ms_homing (es_config_ (min_endstop_ ax)))) ax in
  match run_control_loop (no_locals closed_loop_tick) tr tt ax with
  | Blocked ax => Blocked ax
  | Done _ ax tr =>
      let ax := set_step_dir_enabled false ax in
      Done (check_for_errors ax) ax tr
  end.

(** *** Idle *)

Definition run_idle_loop (tr : list Input) ax : Outcome bool :=
  let ax := safety_critical_disarm_motor_pwm ax in
  match run_control_loop (no_locals (fun ax => (true, ax))) tr tt ax with
  | Blocked ax => Blocked ax
  | Done _ ax tr => Done (check_for_errors ax) ax tr
  end.

(** *** The state machine *)

(** [task_chain_[pos++] = s] *)
Definition push (s : State_t) (p : list State_t * nat) : list State_t * nat :=
  (<[snd p := s]> (fst p), S (snd p)).

Definition push_if (b : bool) (s : State_t) (p : list State_t * nat)
    : list State_t * nat :=
  if b then push s p else p.

(** The expansion of a request into task-chain entries, before the
    terminator is written. *)
Definition expand_request ax (p : list State_t * nat) : list State_t * nat :=
  if bool_decide (requested_state_ ax = AXIS_STATE_STARTUP_SEQUENCE) then
    let p := push_if (startup_motor_calibration (config_ ax))
                     AXIS_STATE_MOTOR_CALIBRATION p in
    let p := push_if (startup_encoder_index_search (config_ ax)
                      && enc_use_index (encoder_ ax))
                     AXIS_STATE_ENCODER_INDEX_SEARCH p in
    let p := push_if (startup_encoder_offset_calibration (config_ ax))
                     AXIS_STATE_ENCODER_OFFSET_CALIBRATION p in
    let p := if startup_closed_loop_control (config_ ax) then
               let p := push_if (startup_homing (config_ ax)) AXIS_STATE_HOMING p in
               push AXIS_STATE_CLOSED_LOOP_CONTROL p
             else push_if (startup_sensorless_control (config_ ax))
                          AXIS_STATE_SENSORLESS_CONTROL p in
    push AXIS_STATE_IDLE p
  else if bool_decide (requested_state_ ax = AXIS_STATE_HOMING) then
    let p := push AXIS_STATE_HOMING p in
    let p := push AXIS_STATE_CLOSED_LOOP_CONTROL p in
    push AXIS_STATE_IDLE p
  else if bool_decide (requested_state_ ax = AXIS_STATE_FULL_CALIBRATION_SEQUENCE) then
    let p := push AXIS_STATE_MOTOR_CALIBRATION p in
    let p := push_if (enc_use_index (encoder_ ax))
                     AXIS_STATE_ENCODER_INDEX_SEARCH p in
    let p := push AXIS_STATE_ENCODER_OFFSET_CALIBRATION p in
    push AXIS_STATE_IDLE p
  else if negb (bool_decide (requested_state_ ax = AXIS_STATE_UNDEFINED)) then
    let p := push (requested_state_ ax) p in
    push AXIS_STATE_IDLE p
  else p.

(** Load the task chain if a specific request is pending. *)
Definition load_task_chain ax : Axis Periph :=
  if negb (bool_decide (requested_state_ ax = AXIS_STATE_UNDEFINED)) then
    let p := expand_request ax (task_chain_ ax, 0%nat) in
    let p := push AXIS_STATE_UNDEFINED p in
    let ax := with_task_chain (fst p) ax in
    let ax := with_requested_state AXIS_STATE_UNDEFINED ax in
    with_error (Z.land (error_ ax) (Z.lnot ERROR_INVALID_STATE)) ax
  else ax.

(** Validate the state before running it. *)
Definition validate_state ax : Axis Periph :=
  let ax :=
    if (state_rank AXIS_STATE_MOTOR_CALIBRATION <? state_rank (current_state_ ax))
       && negb (is_calibrated_ (motor_ ax))
    then set_current_state AXIS_STATE_UNDEFINED ax else ax in
  if (state_rank AXIS_STATE_ENCODER_OFFSET_CALIBRATION <? state_rank (current_state_ ax))
     && negb (enc_is_ready_ (encoder_ ax))
  then set_current_state AXIS_STATE_UNDEFINED ax else ax.

(** Run the specified state: the [switch] on [current_state_]. *)
Definition dispatch (tr : list Input) ax : Outcome bool :=
  match current_state_ ax with
  | AXIS_STATE_MOTOR_CALIBRATION => motor_run_calibration tr ax
  | AXIS_STATE_ENCODER_INDEX_SEARCH => encoder_run_index_search tr ax
  | AXIS_STATE_HOMING => controller_home_axis tr ax
  | AXIS_STATE_ENCODER_OFFSET_CALIBRATION => encoder_run_offset_calibration tr ax
  | AXIS_STATE_SENSORLESS_CONTROL =>
      match run_sensorless_spin_up tr ax with
      | Blocked ax => Blocked ax
      | Done status ax tr =>
          if status then run_sensorless_control_loop tr ax
          else Done status ax tr
      end
  | AXIS_STATE_CLOSED_LOOP_CONTROL => run_closed_loop_control_loop tr ax
  | AXIS_STATE_IDLE =>
      match run_idle_loop tr ax with
      | Blocked ax => Blocked ax
      | Done _ ax tr => let '(status, ax) := motor_arm ax in Done status ax tr
      end
  | _ => Done false (or_error ERROR_INVALID_STATE ax) tr
  end.

(** [memcpy(task_chain_, task_chain_ + 1, sizeof(task_chain_) -
    sizeof(task_chain_[0]))], as a copy in ascending address order: every
    entry but the last takes the value of its right neighbour, the last
    keeps its own. *)
Definition shift_left (tc : list State_t) : list State_t :=
  match tc with
  | [] => []
  | s :: rest => rest ++ [List.last rest s]
  end.

(** If the state failed, go to idle, else advance the task chain. *)
Definition advance (status : bool) ax : Axis Periph :=
  if negb status then set_current_state AXIS_STATE_IDLE ax
  else with_task_chain (shift_left (task_chain_ ax)) ax.

(** One iteration of the [for (;;)] loop of [run_state_machine_loop]. *)
Definition state_machine_iteration (tr : list Input) ax : Outcome unit :=
  match dispatch tr (validate_state (load_task_chain ax)) with
  | Blocked ax => Blocked ax
  | Done status ax tr => Done tt (advance status ax) tr
  end.

(** [n] iterations of the loop. *)
Fixpoint state_machine_iterations (n : nat) (tr : list Input) ax : Outcome unit :=
  match n with
  | O => Done tt ax tr
  | S n =>
      match state_machine_iteration tr ax with
      | Blocked ax => Blocked ax
      | Done _ ax tr => state_machine_iterations n tr ax
      end
  end.

End AxisModel.

Arguments Done {Input Periph A}.
Arguments Blocked {Input Periph A}.
Arguments outcome_axis {Input Periph A}.
Arguments Collaborators : clear implicits.

(** ** A test bench

    Test doubles of the collaborators, for running the model on concrete
    inputs: an input of a control cycle carries the signal, a possible
    request and the sensor readings; the motor update fails when the
    commanded current exceeds the bench's limit; the encoder and the
    endstops copy the readings. *)

Module Bench.

Record Input : Type := {
  signal : bool;
  request : option State_t;
  brake_armed : bool;
  vbus : float;
  vel : float;
  shadow_count : Z;
  min_pressed : bool;
  max_pressed : bool
}.

Record Periph : Type := {
  current_limit : float;
  motor_arm_ok : bool;
  linear_count : Z
}.

Definition rank (s : State_t) : Z :=
  match s with
  | AXIS_STATE_UNDEFINED => 0
  | AXIS_STATE_IDLE => 1
  | AXIS_STATE_STARTUP_SEQUENCE => 2
  | AXIS_STATE_FULL_CALIBRATION_SEQUENCE => 3
  | AXIS_STATE_MOTOR_CALIBRATION => 4
  | AXIS_STATE_ENCODER_INDEX_SEARCH => 5
  | AXIS_STATE_ENCODER_OFFSET_CALIBRATION => 6
  | AXIS_STATE_HOMING => 7
  | AXIS_STATE_CLOSED_LOOP_CONTROL => 8
  | AXIS_STATE_SENSORLESS_CONTROL => 9
  end.

Definition mode_rank (m : ControlMode_t) : Z :=
  match m with
  | CTRL_MODE_CURRENT_CONTROL => 1
  | CTRL_MODE_VELOCITY_CONTROL => 2
  | CTRL_MODE_POSITION_CONTROL => 3
  | CTRL_MODE_TRAJECTORY_CONTROL => 4
  end.

Definition read_encoder (i : Input) (ax : Axis Periph) : Axis Periph :=
  with_encoder
    {| enc_use_index := enc_use_index (encoder_ ax);
       enc_cpr := enc_cpr (encoder_ ax);
       enc_is_ready_ := enc_is_ready_ (encoder_ ax);
       enc_pos_estimate_ := F32.of_int (shadow_count i);
       enc_vel_estimate_ := vel i;
       enc_phase_ := enc_phase_ (encoder_ ax);
       enc_shadow_count_ := shadow_count i |} ax.

Definition read_endstop (pressed : bool) (e : Endstop) : Endstop :=
  {| es_config_ := es_config_ e; endstop_state_ := pressed;
     offset_from_home := offset_from_home e; pin_state_ := pressed;
     debounce_timer_ := debounce_timer_ e |}.

Definition store_linear_count (n : Z) (ax : Axis Periph) : Axis Periph :=
  with_periph
    {| current_limit := current_limit (periph_ ax);
       motor_arm_ok := motor_arm_ok (periph_ ax);
       linear_count := n |} ax.

Definition set_armed (v : Z) (ax : Axis Periph) : Axis Periph :=
  with_motor {| is_calibrated_ := is_calibrated_ (motor_ ax);
                armed_state_ := v |} ax.

Definition arm (ax : Axis Periph) : bool * Axis Periph :=
  if motor_arm_ok (periph_ ax) then (true, set_armed 1 ax) else (false, ax).

Definition returns (b : bool) (tr : list Input) (ax : Axis Periph)
    : @Outcome Input Periph bool :=
  Done b ax tr.

#[global] Instance collaborators : Collaborators Input Periph := {|
  state_rank := rank;
  ctrl_mode_rank := mode_rank;
  ERROR_NONE := 0;
  ERROR_INVALID_STATE := 1;
  ERROR_DC_BUS_UNDER_VOLTAGE := 2;
  ERROR_DC_BUS_OVER_VOLTAGE := 4;
  ERROR_CONTROL_LOOP_MISSED := 8;
  ERROR_BRAKE_RESISTOR_DISARMED := 16;
  ERROR_MOTOR_DISARMED := 32;
  ERROR_MOTOR_FAILED := 64;
  ERROR_CONTROLLER_FAILED := 512;
  ERROR_POS_CTRL_DURING_SENSORLESS := 1024;
  ERROR_MIN_ENDSTOP_PRESSED := 2048;
  ERROR_MAX_ENDSTOP_PRESSED := 4096;
  ARMED_STATE_DISARMED := 0;
  CURRENT_MEAS_HZ := 8000;
  current_meas_period := F32.div F32.one (F32.of_int 8000);
  brake_resistor_armed := brake_armed;
  vbus_voltage := vbus;
  dc_bus_undervoltage_trip_level := F32.of_int 8;
  dc_bus_overvoltage_trip_level := F32.of_int 26;
  signal_received := signal;
  requested_write := request;
  wrap_pm_pi := fun x => x;
  motor_arm := arm;
  motor_update := fun I_mag _ ax =>
    (F32.leb I_mag (current_limit (periph_ ax)), ax);
  motor_do_checks := fun ax => ax;
  motor_run_calibration := returns true;
  safety_critical_disarm_motor_pwm := set_armed 0;
  encoder_update := read_encoder;
  encoder_do_checks := fun ax => ax;
  encoder_run_index_search := returns true;
  encoder_run_offset_calibration := returns true;
  encoder_set_linear_count := store_linear_count;
  sensorless_estimator_update := fun _ ax => ax;
  controller_update := fun _ _ ax => (true, F32.zero, ax);
  controller_home_axis := returns true;
  controller_set_vel_setpoint := fun v _ ax =>
    with_controller (with_vel_setpoint v (controller_ ax)) ax;
  controller_set_pos_setpoint := fun p v _ ax =>
    with_controller
      (with_pos_setpoint p (with_vel_setpoint v (controller_ ax))) ax;
  planTrapezoidal := fun _ _ _ _ _ _ ax => ax;
  min_endstop_update := fun i ax =>
    with_min_endstop (read_endstop (min_pressed i) (min_endstop_ ax)) ax;
  max_endstop_update := fun i ax =>
    with_max_endstop (read_endstop (max_pressed i) (max_endstop_ ax)) ax;
  getEndstopState := endstop_state_
|}.

Definition endstop_config : EndstopConfig :=
  {| gpio_num := 0; enabled := false; offset := 0; is_active_high := false;
     debounce_ms := F32.of_int 100; home_percentage := F32.zero;
     physical_endstop := false; min_ms_homing := 4000 |}.

Definition endstop : Endstop :=
  {| es_config_ := endstop_config; endstop_state_ := false;
     offset_from_home := 0; pin_state_ := false;
     debounce_timer_ := F32.zero |}.

Definition config : Config_t :=
  {| startup_motor_calibration := false;
     startup_encoder_index_search := false;
     startup_encoder_offset_calibration := false;
     startup_closed_loop_control := false;
     startup_sensorless_control := false;
     startup_homing := false;
     enable_step_dir := false;
     counts_per_step := F32.of_int 2;
     ramp_up_time := F32.one;
     ramp_up_distance := F32.of_int 12;
     spin_up_current := F32.of_int 10;
     spin_up_acceleration := F32.of_int 400;
     spin_up_target_vel := F32.of_int 400 |}.

(** The axis after boot: nothing calibrated, nothing requested, an
    all-Undefined task chain of ten entries, no error. *)
Definition boot : Axis Periph :=
  {| config_ := config;
     encoder_ := {| enc_use_index := false; enc_cpr := 8192;
                    enc_is_ready_ := false; enc_pos_estimate_ := F32.zero;
                    enc_vel_estimate_ := F32.zero; enc_phase_ := F32.zero;
                    enc_shadow_count_ := 0 |};
     sensorless_estimator_ := {| sl_pll_pos_ := F32.zero;
                                 sl_vel_estimate_ := F32.zero;
                                 sl_phase_ := F32.zero |};
     controller_ := {| control_mode := CTRL_MODE_POSITION_CONTROL;
                       homing_speed := F32.of_int 2000;
                       pos_setpoint_ := F32.zero; vel_setpoint_ := F32.zero;
                       vel_integrator_current_ := F32.zero;
                       traj_start_loop_count_ := 0 |};
     motor_ := {| is_calibrated_ := false; armed_state_ := 0 |};
     min_endstop_ := endstop;
     max_endstop_ := endstop;
     error_ := 0;
     enable_step_dir_ := false;
     requested_state_ := AXIS_STATE_UNDEFINED;
     task_chain_ := replicate 10 AXIS_STATE_UNDEFINED;
     homing_state_ := HOMING_STATE_INACTIVE;
     loop_counter_ := 0;
     finding_min_endstop := true;
     loop_counter_check := 0;
     periph_ := {| current_limit := F32.of_int 60; motor_arm_ok := true;
                   linear_count := 0 |} |}.

Definition request_of (s : State_t) : Axis Periph :=
  with_requested_state s boot.

(** An uneventful control cycle: the signal arrives, the bus voltage is
    in band, the axis moves and no endstop is pressed. *)
Definition cycle : Input :=
  {| signal := true; request := None; brake_armed := true;
     vbus := F32.of_int 24; vel := F32.of_int 100; shadow_count := 0;
     min_pressed := false; max_pressed := false |}.

(** A control cycle that finds the brake resistor disarmed. *)
Definition brake_fault_cycle : Input :=
  {| signal := true; request := None; brake_armed := false;
     vbus := F32.of_int 24; vel := F32.zero; shadow_count := 0;
     min_pressed := false; max_pressed := false |}.

(** The same, with a request for Idle arriving during the cycle. *)
Definition brake_fault_request_cycle : Input :=
  {| signal := true; request := Some AXIS_STATE_IDLE; brake_armed := false;
     vbus := F32.of_int 24; vel := F32.zero; shadow_count := 0;
     min_pressed := false; max_pressed := false |}.

(** The axis after boot with Idle requested and a motor that refuses to
    arm. *)
Definition idle_unarmable : Axis Periph :=
  with_periph {| current_limit := F32.of_int 60; motor_arm_ok := false;
                 linear_count := 0 |} (request_of AXIS_STATE_IDLE).

(** A control cycle with the given velocity, encoder count and endstop
    readings. *)
Definition cycle_with (v : float) (count : Z) (min_p max_p : bool) : Input :=
  {| signal := true; request := None; brake_armed := true;
     vbus := F32.of_int 24; vel := v; shadow_count := count;
     min_pressed := min_p; max_pressed := max_p |}.

(** The axis calibrated, ready and armed, running state [s]. *)
Definition running (s : State_t) : Axis Periph :=
  with_motor {| is_calibrated_ := true; armed_state_ := 1 |}
    (with_encoder
       {| enc_use_index := false; enc_cpr := 8192; enc_is_ready_ := true;
          enc_pos_estimate_ := F32.zero; enc_vel_estimate_ := F32.zero;
          enc_phase_ := F32.zero; enc_shadow_count_ := 0 |}
       (with_task_chain
          (s :: AXIS_STATE_IDLE :: replicate 8 AXIS_STATE_UNDEFINED) boot)).

(** An enabled endstop with the given homing window and home percentage. *)
Definition homing_endstop (ms : Z) (p : float) : Endstop :=
  {| es_config_ :=
       {| gpio_num := 0; enabled := true; offset := 0; is_active_high := false;
          debounce_ms := F32.of_int 100; home_percentage := p;
          physical_endstop := false; min_ms_homing := ms |};
     endstop_state_ := false; offset_from_home := 0; pin_state_ := false;
     debounce_timer_ := F32.zero |}.

(** The axis about to enter closed-loop control with homing armed. *)
Definition homing (ms : Z) (p : float) : Axis Periph :=
  with_homing_state HOMING_STATE_HOMING
    (with_min_endstop (homing_endstop ms p)
       (with_max_endstop (homing_endstop ms F32.zero)
          (running AXIS_STATE_CLOSED_LOOP_CONTROL))).

(** The axis in the seek-max phase, the max endstop pressed, the encoder at
    [count] and the min endstop's count held in [offset_from_home]. *)
Definition seeking_max (count held : Z) (p : float) : Axis Periph :=
  with_finding_min_endstop false
    (with_encoder
       {| enc_use_index := false; enc_cpr := 8192; enc_is_ready_ := true;
          enc_pos_estimate_ := F32.of_int count; enc_vel_estimate_ := F32.zero;
          enc_phase_ := F32.zero; enc_shadow_count_ := count |}
       (with_min_endstop (with_offset_from_home held (homing_endstop 4000 p))
          (with_max_endstop (read_endstop true (homing_endstop 4000 F32.zero))
             (homing 4000 p)))).

(** The axis in the move-to-zero phase with the min endstop pressed. *)
Definition moving_to_zero : Axis Periph :=
  with_homing_state HOMING_STATE_MOVE_TO_ZERO
    (with_min_endstop (read_endstop true (homing_endstop 4000 F32.zero))
       (homing 4000 F32.zero)).

(** The axis about to spin up sensorless: the ramp takes two control
    cycles, and the motor update accepts currents up to [limit]. *)
Definition spinning_up (limit : float) : Axis Periph :=
  with_periph {| current_limit := limit; motor_arm_ok := true;
                 linear_count := 0 |}
    (with_config
       {| startup_motor_calibration := false;
          startup_encoder_index_search := false;
          startup_encoder_offset_calibration := false;
          startup_closed_loop_control := false;
          startup_sensorless_control := true;
          startup_homing := false;
          enable_step_dir := false;
          counts_per_step := F32.of_int 2;
          ramp_up_time := F32.div F32.one (F32.of_int 4000);
          ramp_up_distance := F32.of_int 12;
          spin_up_current := F32.of_int 10;
          spin_up_acceleration := F32.of_int 400;
          spin_up_target_vel := F32.of_int 400 |}
       (running AXIS_STATE_SENSORLESS_CONTROL)).

(** The axis with step/direction input enabled, the position setpoint at
    [pos] counts and [step] counts per step. *)
Definition stepping (pos : float) (step : float) : Axis Periph :=
  with_enable_step_dir true
    (with_controller (with_pos_setpoint pos (controller_ boot))
       (with_config
          {| startup_motor_calibration := false;
             startup_encoder_index_search := false;
             startup_encoder_offset_calibration := false;
             startup_closed_loop_control := true;
             startup_sensorless_control := false;
             startup_homing := false;
             enable_step_dir := true;
             counts_per_step := step;
             ramp_up_time := F32.one;
             ramp_up_distance := F32.of_int 12;
             spin_up_current := F32.of_int 10;
             spin_up_acceleration := F32.of_int 400;
             spin_up_target_vel := F32.of_int 400 |}
          (running AXIS_STATE_CLOSED_LOOP_CONTROL))).

(** A StartupSequence request on the axis configured for closed-loop
    control. *)
Definition startup_request : Axis Periph :=
  with_requested_state AXIS_STATE_STARTUP_SEQUENCE (stepping F32.zero F32.one).

(** A request for closed-loop control with the motor calibrated but the
    encoder not ready. *)
Definition not_ready_request : Axis Periph :=
  with_motor {| is_calibrated_ := true; armed_state_ := 0 |}
    (request_of AXIS_STATE_CLOSED_LOOP_CONTROL).

(** A Homing request on the calibrated, ready axis. *)
Definition homing_request : Axis Periph :=
  with_requested_state AXIS_STATE_HOMING (running AXIS_STATE_IDLE).

(** The axis in closed-loop control, homing inactive, with the enabled min
    endstop pressed. *)
Definition min_pressed_outside_homing : Axis Periph :=
  with_homing_state HOMING_STATE_INACTIVE moving_to_zero.



End Bench.

(** ** Single-precision facts *)

Section FloatFacts.

Lemma digits_shift23 m :
  Zpos (digits2_pos (8388608 * m)) = Zpos (digits2_pos m) + 23.
Proof.
  change (8388608 * m)%positive
    with (m~0~0~0~0~0~0~0~0~0~0~0~0~0~0~0~0~0~0~0~0~0~0~0)%positive.
  cbn [digits2_pos]. rewrite !Pos2Z.inj_succ. lia.
Qed.

Lemma shr_shift23 m :
  SpecFloat.iter_pos shr_1 23
    {| shr_m := Zpos (8388608 * m); shr_r := false; shr_s := false |}
  = {| shr_m := Zpos m; shr_r := false; shr_s := false |}.
Proof. reflexivity. Qed.

Lemma shr_fexp_times_one m e :
  fexp F32.prec F32.emax (Z.pos (digits2_pos m) + e) = e ->
  shr_fexp F32.prec F32.emax (Zpos (8388608 * m)) (-23 + e) loc_Exact
  = ({| shr_m := Zpos m; shr_r := false; shr_s := false |}, e).
Proof.
  intros Hc. unfold shr_fexp, Zdigits2. rewrite digits_shift23.
  replace (Z.pos (digits2_pos m) + 23 + (-23 + e))
    with (Z.pos (digits2_pos m) + e) by lia.
  rewrite Hc. replace (e - (-23 + e)) with 23 by lia.
  unfold shr, shr_record_of_loc. rewrite shr_shift23.
  f_equal. lia.
Qed.

Lemma shr_fexp_canonical m e :
  fexp F32.prec F32.emax (Z.pos (digits2_pos m) + e) = e ->
  shr_fexp F32.prec F32.emax (Zpos m) e loc_Exact
  = ({| shr_m := Zpos m; shr_r := false; shr_s := false |}, e).
Proof.
  intros Hc. unfold shr_fexp, Zdigits2. rewrite Hc, Z.sub_diag. reflexivity.
Qed.

Lemma round_times_one s m e :
  bounded F32.prec F32.emax m e = true ->
  binary_round_aux F32.prec F32.emax s (Zpos (8388608 * m)) (-23 + e) loc_Exact
  = S754_finite s m e.
Proof.
  unfold bounded, canonical_mantissa. intros Hb.
  apply andb_prop in Hb as [Hc He]. apply Z.eqb_eq in Hc.
  unfold binary_round_aux.
  rewrite (shr_fexp_times_one m e Hc).
  cbn [loc_of_shr_record shr_m round_nearest_even].
  rewrite (shr_fexp_canonical m e Hc).
  cbn [shr_m]. now rewrite He.
Qed.

(** Multiplying by [1.0f] or [-1.0f] is exact. *)
Lemma mul_one_l x : F32.valid x = true -> F32.mul F32.one x = x.
Proof.
  destruct x as [s | s | | s m e]; try reflexivity.
  intros Hv. apply (round_times_one s m e Hv).
Qed.

Lemma mul_minus_one_l x :
  F32.valid x = true -> F32.mul (F32.neg F32.one) x = F32.neg x.
Proof.
  destruct x as [s | s | | s m e]; try reflexivity.
  intros Hv. apply (round_times_one (negb s) m e Hv).
Qed.

End FloatFacts.

(** ** Properties of the state machine *)

Section StateMachineProperties.
Context {Input Periph : Type} {C : Collaborators Input Periph}.
Implicit Type ax : Axis Periph.
Implicit Type tr : list Input.

(** *** Reading back what the field updates wrote *)

Lemma task_chain_with_task_chain tc ax :
  task_chain_ (with_task_chain tc ax) = tc.
Proof. destruct ax; reflexivity. Qed.

Lemma task_chain_set_current_state s ax :
  task_chain_ (set_current_state s ax) = <[0%nat := s]> (task_chain_ ax).
Proof. apply task_chain_with_task_chain. Qed.

Lemma current_state_set_current_state s ax :
  (0 < length (task_chain_ ax))%nat ->
  current_state_ (set_current_state s ax) = s.
Proof.
  intros Hlen. unfold current_state_.
  rewrite task_chain_set_current_state.
  destruct (task_chain_ ax); simpl in *; [lia | reflexivity].
Qed.

Lemma error_set_current_state s ax :
  error_ (set_current_state s ax) = error_ ax.
Proof. destruct ax; reflexivity. Qed.

Lemma task_chain_or_error e ax :
  task_chain_ (or_error e ax) = task_chain_ ax.
Proof. destruct ax; reflexivity. Qed.

Lemma error_or_error e ax :
  error_ (or_error e ax) = Z.lor (error_ ax) e.
Proof. destruct ax; reflexivity. Qed.

(** *** The shift of the task chain *)

Lemma shift_left_length tc : length (shift_left tc) = length tc.
Proof.
  destruct tc as [|s rest]; simpl; [reflexivity|].
  rewrite length_app. simpl. lia.
Qed.

Lemma shift_left_lookup tc (i : nat) :
  (S i < length tc)%nat -> shift_left tc !! i = tc !! S i.
Proof.
  destruct tc as [|s rest]; simpl; intros Hi; [lia|].
  apply lookup_app_l. lia.
Qed.

Lemma last_cons (rest : list State_t) r s :
  List.last (r :: rest) s = List.last rest r.
Proof.
  revert r s. induction rest as [|a rest IH]; intros r s; [reflexivity|].
  change (List.last (a :: rest) s = List.last (a :: rest) r).
  now rewrite !IH.
Qed.

Lemma shift_left_last tc (n : nat) :
  length tc = S n -> shift_left tc !! n = tc !! n.
Proof.
  destruct tc as [|s rest]; simpl; intros Hn; [lia|].
  injection Hn as Hn. subst n.
  rewrite lookup_app_r by lia. rewrite Nat.sub_diag.
  clear. revert s. induction rest as [|r rest IH]; intros s.
  - reflexivity.
  - rewrite last_cons. apply (IH r).
Qed.

(** C1.  In one iteration of the state machine loop, once the dispatched
    handler has returned [status]: if [status] is false, [current_state_]
    becomes Idle and the entries behind it stay where they are (the chain
    is not advanced); if [status] is true, the chain is shifted left by
    exactly one position, so that the former [task_chain_[1]] becomes
    [current_state_].  Nothing but the task chain changes. *)
Theorem iteration_advances_task_chain tr ax status ax1 tr1 :
  dispatch tr (validate_state (load_task_chain ax)) = Done status ax1 tr1 ->
  (2 <= length (task_chain_ ax1))%nat ->
  exists ax2,
    state_machine_iteration tr ax = Done tt ax2 tr1 /\
    ax2 = with_task_chain (task_chain_ ax2) ax1 /\
    length (task_chain_ ax2) = length (task_chain_ ax1) /\
    (status = false ->
       current_state_ ax2 = AXIS_STATE_IDLE /\
       forall i : nat, (1 <= i)%nat ->
         task_chain_ ax2 !! i = task_chain_ ax1 !! i) /\
    (status = true ->
       Some (current_state_ ax2) = task_chain_ ax1 !! 1%nat /\
       forall i : nat, (S i < length (task_chain_ ax1))%nat ->
         task_chain_ ax2 !! i = task_chain_ ax1 !! S i).
Proof.
  intros Hd Hlen. exists (advance status ax1).
  split; [unfold state_machine_iteration; rewrite Hd; reflexivity|].
  destruct status; unfold advance; simpl.
  - rewrite task_chain_with_task_chain.
    split; [destruct ax1; reflexivity|].
    split; [apply shift_left_length|].
    split; [discriminate|]. intros _. split.
    + unfold current_state_. rewrite task_chain_with_task_chain.
      rewrite shift_left_lookup by lia.
      destruct (task_chain_ ax1 !! 1%nat) eqn:E; [reflexivity|].
      apply lookup_ge_None in E. lia.
    + intros i Hi. apply shift_left_lookup, Hi.
  - rewrite task_chain_set_current_state.
    split; [destruct ax1; reflexivity|].
    split; [apply length_insert|].
    split; [|discriminate]. intros _. split.
    + apply current_state_set_current_state. lia.
    + intros i Hi. apply list_lookup_insert_ne. lia.
Qed.

(** *** Loading the task chain *)

Lemma push_length s (p : list State_t * nat) :
  length (fst (push s p)) = length (fst p).
Proof. apply length_insert. Qed.

Lemma push_if_length b s (p : list State_t * nat) :
  length (fst (push_if b s p)) = length (fst p).
Proof. destruct b; [apply push_length | reflexivity]. Qed.

Lemma expand_request_length ax (p : list State_t * nat) :
  length (fst (expand_request ax p)) = length (fst p).
Proof.
  unfold expand_request.
  repeat match goal with
         | |- context [if ?b then _ else _] => destruct b
         end;
    repeat first [rewrite push_length | rewrite push_if_length];
    reflexivity.
Qed.

Lemma load_task_chain_length ax :
  length (task_chain_ (load_task_chain ax)) = length (task_chain_ ax).
Proof.
  unfold load_task_chain.
  destruct (negb _); [|reflexivity].
  destruct ax; simpl.
  now rewrite length_insert, expand_request_length.
Qed.

Lemma load_task_chain_motor ax : motor_ (load_task_chain ax) = motor_ ax.
Proof.
  unfold load_task_chain. destruct (negb _); [|reflexivity].
  destruct ax; reflexivity.
Qed.

(** A request for a single concrete state is expanded to that state
    followed by Idle and the terminator. *)
Lemma load_single_state ax :
  requested_state_ ax <> AXIS_STATE_UNDEFINED ->
  requested_state_ ax <> AXIS_STATE_STARTUP_SEQUENCE ->
  requested_state_ ax <> AXIS_STATE_HOMING ->
  requested_state_ ax <> AXIS_STATE_FULL_CALIBRATION_SEQUENCE ->
  (3 <= length (task_chain_ ax))%nat ->
  task_chain_ (load_task_chain ax) =
    requested_state_ ax :: AXIS_STATE_IDLE :: AXIS_STATE_UNDEFINED
      :: drop 3 (task_chain_ ax).
Proof.
  intros Hu Hs Hh Hf Hlen.
  unfold load_task_chain, expand_request.
  rewrite !bool_decide_false by assumption. simpl.
  destruct ax as [? ? ? ? ? ? ? ? ? rs tc ? ? ? ? ?]; simpl in *.
  destruct tc as [|a [|b [|c tc]]]; simpl in Hlen; try lia.
  reflexivity.
Qed.

Lemma load_closed_loop_request ax :
  requested_state_ ax = AXIS_STATE_CLOSED_LOOP_CONTROL ->
  (3 <= length (task_chain_ ax))%nat ->
  current_state_ (load_task_chain ax) = AXIS_STATE_CLOSED_LOOP_CONTROL.
Proof.
  intros Hr Hlen. unfold current_state_.
  rewrite load_single_state by (rewrite ?Hr; done).
  now rewrite Hr.
Qed.

(** C3 (as the code has it).  A request for Idle loads the chain Idle,
    Idle, Undefined: the requested state and the Idle that follows every
    single-state request are both written, then the terminator; the
    entries behind the terminator keep their old values. *)
Theorem load_idle_request ax :
  requested_state_ ax = AXIS_STATE_IDLE ->
  (3 <= length (task_chain_ ax))%nat ->
  task_chain_ (load_task_chain ax) =
    AXIS_STATE_IDLE :: AXIS_STATE_IDLE :: AXIS_STATE_UNDEFINED
      :: drop 3 (task_chain_ ax).
Proof.
  intros Hr Hlen.
  rewrite load_single_state by (rewrite ?Hr; done).
  now rewrite Hr.
Qed.

(** C7.  Loading a task chain from a pending request resets
    [requested_state_] to Undefined and clears from [error_] the bits of
    [ERROR_INVALID_STATE] and no other: every bit outside
    [ERROR_INVALID_STATE] has after the load the value it had before.
    Apart from the task chain, [requested_state_] and [error_], the axis
    is unchanged. *)
Theorem load_clears_invalid_state_only ax :
  requested_state_ ax <> AXIS_STATE_UNDEFINED ->
  requested_state_ (load_task_chain ax) = AXIS_STATE_UNDEFINED /\
  (forall i : Z,
     Z.testbit (error_ (load_task_chain ax)) i =
     Z.testbit (error_ ax) i && negb (Z.testbit ERROR_INVALID_STATE i)) /\
  load_task_chain ax =
    with_error (error_ (load_task_chain ax))
      (with_requested_state AXIS_STATE_UNDEFINED
         (with_task_chain (task_chain_ (load_task_chain ax)) ax)).
Proof.
  intros Hr. unfold load_task_chain.
  rewrite bool_decide_false by assumption. simpl.
  destruct ax as [? ? ? ? ? ? ? err ? rs tc ? ? ? ? ?]; simpl.
  split; [reflexivity|]. split; [|reflexivity].
  intros i. destruct (Z.neg_nonneg_cases i) as [Hi | Hi].
  - now rewrite !Z.testbit_neg_r.
  - now rewrite Z.land_spec, Z.lnot_spec.
Qed.

(** *** Validation and dispatch *)

Lemma set_current_state_twice s ax :
  set_current_state s (set_current_state s ax) = set_current_state s ax.
Proof.
  destruct ax as [? ? ? ? ? ? ? ? ? ? tc ? ? ? ? ?].
  unfold set_current_state; simpl. now destruct tc.
Qed.

(** A state that needs a calibrated motor is replaced by Undefined when
    the motor is not calibrated, whatever the encoder check then finds. *)
Lemma validate_state_uncalibrated ax :
  state_rank AXIS_STATE_MOTOR_CALIBRATION < state_rank (current_state_ ax) ->
  is_calibrated_ (motor_ ax) = false ->
  validate_state ax = set_current_state AXIS_STATE_UNDEFINED ax.
Proof.
  intros Hrank Hcal. unfold validate_state.
  apply Z.ltb_lt in Hrank. rewrite Hrank, Hcal. simpl.
  destruct (_ && _); [apply set_current_state_twice | reflexivity].
Qed.


Lemma dispatch_undefined tr ax :
  current_state_ ax = AXIS_STATE_UNDEFINED ->
  dispatch tr ax = Done false (or_error ERROR_INVALID_STATE ax) tr.
Proof. intros Hcs. unfold dispatch. now rewrite Hcs. Qed.

(** C2.  In a loop iteration where [current_state_], as the load of the
    task chain leaves it, is stricter than MotorCalibration and the motor
    is not calibrated: validation forces [current_state_] to Undefined
    before dispatch; no handler runs (no input is consumed); the default
    case sets the [ERROR_INVALID_STATE] bits in [error_]; and the axis
    falls to Idle without advancing the chain.  (A request for
    ClosedLoopControl puts ClosedLoopControl in [current_state_], see
    [load_closed_loop_request], so this is what happens to it when the
    motor is not calibrated.) *)
Theorem uncalibrated_state_falls_to_idle tr ax :
  (0 < length (task_chain_ ax))%nat ->
  is_calibrated_ (motor_ ax) = false ->
  state_rank AXIS_STATE_MOTOR_CALIBRATION
    < state_rank (current_state_ (load_task_chain ax)) ->
  current_state_ (validate_state (load_task_chain ax)) = AXIS_STATE_UNDEFINED /\
  exists ax2,
    state_machine_iteration tr ax = Done tt ax2 tr /\
    error_ ax2 = Z.lor (error_ (load_task_chain ax)) ERROR_INVALID_STATE /\
    current_state_ ax2 = AXIS_STATE_IDLE /\
    forall i : nat, (1 <= i)%nat ->
      task_chain_ ax2 !! i = task_chain_ (load_task_chain ax) !! i.
Proof.
  intros Hlen Hcal Hrank.
  rewrite <- load_task_chain_length in Hlen.
  rewrite <- load_task_chain_motor in Hcal.
  set (ax1 := load_task_chain ax) in *.
  assert (Hv : validate_state ax1 = set_current_state AXIS_STATE_UNDEFINED ax1)
    by now apply validate_state_uncalibrated.
  assert (Hcs : current_state_ (validate_state ax1) = AXIS_STATE_UNDEFINED)
    by (rewrite Hv; now apply current_state_set_current_state).
  split; [exact Hcs|].
  eexists. split.
  - unfold state_machine_iteration. fold ax1.
    rewrite (dispatch_undefined _ _ Hcs). reflexivity.
  - unfold advance; simpl. rewrite Hv.
    split; [|split].
    + now rewrite error_set_current_state, error_or_error,
        error_set_current_state.
    + apply current_state_set_current_state.
      now rewrite task_chain_or_error, task_chain_set_current_state,
        length_insert.
    + intros i Hi.
      rewrite task_chain_set_current_state, task_chain_or_error,
        task_chain_set_current_state.
      rewrite !list_lookup_insert_ne by lia. reflexivity.
Qed.



End StateMachineProperties.

(** *** The state machine on the bench *)

Lemma iteration_advances_task_chain_witness :
  dispatch [] (validate_state (load_task_chain
                 (Bench.request_of AXIS_STATE_MOTOR_CALIBRATION)))
    = Done true (load_task_chain (Bench.request_of AXIS_STATE_MOTOR_CALIBRATION)) []
  /\ (2 <= length (task_chain_
             (load_task_chain (Bench.request_of AXIS_STATE_MOTOR_CALIBRATION))))%nat
  /\ exists ax2,
       state_machine_iteration []
         (Bench.request_of AXIS_STATE_MOTOR_CALIBRATION) = Done tt ax2 [] /\
       task_chain_ ax2
         = AXIS_STATE_IDLE :: replicate 9 AXIS_STATE_UNDEFINED.
Proof.
  assert (h1 : dispatch [] (validate_state (load_task_chain
                 (Bench.request_of AXIS_STATE_MOTOR_CALIBRATION)))
    = Done true (load_task_chain (Bench.request_of AXIS_STATE_MOTOR_CALIBRATION)) [])
    by (vm_compute; reflexivity).
  assert (h2 : (2 <= length (task_chain_
             (load_task_chain (Bench.request_of AXIS_STATE_MOTOR_CALIBRATION))))%nat)
    by (vm_compute; lia).
  split; [exact h1|]. split; [exact h2|].
  destruct (iteration_advances_task_chain _ _ _ _ _ h1 h2)
    as (ax2 & Hit & Hax2 & _).
  exists ax2. split; [exact Hit|].
  vm_compute in Hit. injection Hit as <-. reflexivity.
Defined.

Lemma uncalibrated_state_falls_to_idle_witness :
  (0 < length (task_chain_ (Bench.request_of AXIS_STATE_CLOSED_LOOP_CONTROL)))%nat
  /\ is_calibrated_ (motor_ (Bench.request_of AXIS_STATE_CLOSED_LOOP_CONTROL)) = false
  /\ state_rank AXIS_STATE_MOTOR_CALIBRATION
       < state_rank (current_state_ (load_task_chain
                       (Bench.request_of AXIS_STATE_CLOSED_LOOP_CONTROL)))
  /\ current_state_ (validate_state (load_task_chain
                       (Bench.request_of AXIS_STATE_CLOSED_LOOP_CONTROL)))
       = AXIS_STATE_UNDEFINED
  /\ exists ax2,
       state_machine_iteration [Bench.cycle]
         (Bench.request_of AXIS_STATE_CLOSED_LOOP_CONTROL)
         = Done tt ax2 [Bench.cycle] /\
       error_ ax2
         = Z.lor (error_ (load_task_chain
                            (Bench.request_of AXIS_STATE_CLOSED_LOOP_CONTROL)))
                 ERROR_INVALID_STATE /\
       current_state_ ax2 = AXIS_STATE_IDLE /\
       forall i : nat, (1 <= i)%nat ->
         task_chain_ ax2 !! i
         = task_chain_ (load_task_chain
                          (Bench.request_of AXIS_STATE_CLOSED_LOOP_CONTROL)) !! i.
Proof.
  assert (h1 : (0 < length (task_chain_
                  (Bench.request_of AXIS_STATE_CLOSED_LOOP_CONTROL)))%nat)
    by (vm_compute; lia).
  assert (h2 : is_calibrated_
                 (motor_ (Bench.request_of AXIS_STATE_CLOSED_LOOP_CONTROL)) = false)
    by reflexivity.
  assert (h3 : state_rank AXIS_STATE_MOTOR_CALIBRATION
       < state_rank (current_state_ (load_task_chain
                       (Bench.request_of AXIS_STATE_CLOSED_LOOP_CONTROL))))
    by (vm_compute; reflexivity).
  split; [exact h1|]. split; [exact h2|]. split; [exact h3|].
  exact (uncalibrated_state_falls_to_idle [Bench.cycle] _ h1 h2 h3).
Defined.

Lemma load_idle_request_witness :
  requested_state_ (Bench.request_of AXIS_STATE_IDLE) = AXIS_STATE_IDLE
  /\ (3 <= length (task_chain_ (Bench.request_of AXIS_STATE_IDLE)))%nat
  /\ task_chain_ (load_task_chain (Bench.request_of AXIS_STATE_IDLE)) =
       AXIS_STATE_IDLE :: AXIS_STATE_IDLE :: AXIS_STATE_UNDEFINED
         :: drop 3 (task_chain_ (Bench.request_of AXIS_STATE_IDLE)).
Proof.
  assert (h1 : requested_state_ (Bench.request_of AXIS_STATE_IDLE)
               = AXIS_STATE_IDLE) by reflexivity.
  assert (h2 : (3 <= length (task_chain_ (Bench.request_of AXIS_STATE_IDLE)))%nat)
    by (vm_compute; lia).
  split; [exact h1|]. split; [exact h2|].
  exact (load_idle_request _ h1 h2).
Defined.

(** C3 (as stated) fails: after boot, a request for Idle does not load the
    chain Idle, Undefined; the second entry is Idle and the terminator is
    the third. *)
Lemma load_idle_request_not_collapsed :
  take 3 (task_chain_ (load_task_chain (Bench.request_of AXIS_STATE_IDLE)))
    = [AXIS_STATE_IDLE; AXIS_STATE_IDLE; AXIS_STATE_UNDEFINED]
  /\ task_chain_ (load_task_chain (Bench.request_of AXIS_STATE_IDLE)) !! 1%nat
       <> Some AXIS_STATE_UNDEFINED
  /\ take 2 (task_chain_ (load_task_chain (Bench.request_of AXIS_STATE_IDLE)))
       <> [AXIS_STATE_IDLE; AXIS_STATE_UNDEFINED].
Proof.
  split; [reflexivity|]. split; vm_compute; discriminate.
Qed.

Lemma load_clears_invalid_state_only_witness :
  requested_state_ (with_error 65 (Bench.request_of AXIS_STATE_IDLE))
    <> AXIS_STATE_UNDEFINED
  /\ error_ (load_task_chain (with_error 65 (Bench.request_of AXIS_STATE_IDLE)))
       = 64
  /\ requested_state_
       (load_task_chain (with_error 65 (Bench.request_of AXIS_STATE_IDLE)))
       = AXIS_STATE_UNDEFINED.
Proof.
  assert (h1 : requested_state_ (with_error 65 (Bench.request_of AXIS_STATE_IDLE))
               <> AXIS_STATE_UNDEFINED) by (vm_compute; discriminate).
  split; [exact h1|]. split; [reflexivity|].
  exact (proj1 (load_clears_invalid_state_only _ h1)).
Defined.

(** ** Properties of the step/direction input *)

Section StepDirProperties.
Context {Periph : Type}.
Implicit Type ax : Axis Periph.

(** C9 (as the code has it).  While [enable_step_dir_] is true, an
    invocation of the step callback replaces [pos_setpoint_] by the
    single-precision sum of [pos_setpoint_] and [counts_per_step] when the
    direction pin reads high, and of [pos_setpoint_] and [-counts_per_step]
    when it reads low (the product with the direction, 1.0f or -1.0f, is
    exact; the sum is rounded to the nearest [float]); nothing else
    changes.  While [enable_step_dir_] is false the callback leaves the
    axis unchanged. *)
Theorem step_cb_adds_counts_per_step ax :
  F32.valid (counts_per_step (config_ ax)) = true ->
  (enable_step_dir_ ax = true ->
     step_cb GPIO_PIN_SET ax =
       with_controller
         (with_pos_setpoint
            (F32.add (pos_setpoint_ (controller_ ax))
                     (counts_per_step (config_ ax)))
            (controller_ ax)) ax /\
     step_cb GPIO_PIN_RESET ax =
       with_controller
         (with_pos_setpoint
            (F32.add (pos_setpoint_ (controller_ ax))
                     (F32.neg (counts_per_step (config_ ax))))
            (controller_ ax)) ax) /\
  (enable_step_dir_ ax = false -> forall pin, step_cb pin ax = ax).
Proof.
  intros Hv. unfold step_cb. split.
  - intros ->. now rewrite mul_one_l, mul_minus_one_l.
  - intros ->. reflexivity.
Qed.

End StepDirProperties.

Lemma step_cb_adds_counts_per_step_witness :
  F32.valid (counts_per_step
               (config_ (Bench.stepping F32.zero
                           (F32.div (F32.of_int 25) (F32.of_int 2))))) = true
  /\ pos_setpoint_
       (controller_
          (step_cb GPIO_PIN_SET
             (Bench.stepping F32.zero (F32.div (F32.of_int 25) (F32.of_int 2)))))
     = F32.div (F32.of_int 25) (F32.of_int 2).
Proof.
  assert (h : F32.valid (counts_per_step
               (config_ (Bench.stepping F32.zero
                           (F32.div (F32.of_int 25) (F32.of_int 2))))) = true)
    by reflexivity.
  split; [exact h|].
  rewrite (proj1 (proj1 (step_cb_adds_counts_per_step _ h) eq_refl)).
  reflexivity.
Defined.

(** Three steps of 12.5 counts from 0 with the direction pin high give
    37.5 exactly. *)
Example three_steps_of_12_5 :
  pos_setpoint_
    (controller_
       (step_cb GPIO_PIN_SET
          (step_cb GPIO_PIN_SET
             (step_cb GPIO_PIN_SET
                (Bench.stepping F32.zero
                   (F32.div (F32.of_int 25) (F32.of_int 2)))))))
  = F32.div (F32.of_int 75) (F32.of_int 2).
Proof. reflexivity. Qed.

(** C9 (as stated) fails: with step/direction enabled, the setpoint at
    2^24 counts and one count per step, a step with the direction pin high
    leaves [pos_setpoint_] where it was: 2^24 + 1 is not a [float] and the
    sum rounds back to 2^24.  The change is 0, not [counts_per_step]. *)
Lemma step_cb_step_absorbed :
  enable_step_dir_ (Bench.stepping (F32.of_int 16777216) F32.one) = true
  /\ counts_per_step (config_ (Bench.stepping (F32.of_int 16777216) F32.one))
     = F32.of_int 1
  /\ pos_setpoint_ (controller_ (Bench.stepping (F32.of_int 16777216) F32.one))
     = F32.of_int 16777216
  /\ pos_setpoint_
       (controller_
          (step_cb GPIO_PIN_SET (Bench.stepping (F32.of_int 16777216) F32.one)))
     = F32.of_int 16777216
  /\ F32.eqb (counts_per_step
                (config_ (Bench.stepping (F32.of_int 16777216) F32.one)))
             F32.zero = false.
Proof. repeat split; reflexivity. Qed.

(** ** Properties of the sensorless spin-up *)

Section SpinUpProperties.
Context {Input Periph : Type} {C : Collaborators Input Periph}.
Implicit Type ax : Axis Periph.
Implicit Type tr : list Input.

Lemma vel_setpoint_assigned (v : float) ax :
  vel_setpoint_ (controller_ (with_controller (with_vel_setpoint v (controller_ ax)) ax))
  = v.
Proof. destruct ax; reflexivity. Qed.

Lemma config_with_controller (c : Controller) ax :
  config_ (with_controller c ax) = config_ ax.
Proof. destruct ax; reflexivity. Qed.

(** C8 (as the code has it).  When [run_sensorless_spin_up] returns, the
    early spin-up stage has returned, and either [error_] was then
    different from [ERROR_NONE], in which case the routine returns false
    at once and hands back the axis exactly as that stage left it, without
    assigning [vel_setpoint_]; or [error_] was [ERROR_NONE], in which case
    the late stage has run and, however it ended (also with MotorFailed),
    [vel_setpoint_] equals [spin_up_target_vel] on exit and the status is
    that of [check_for_errors]. *)
Theorem spin_up_exit tr ax status ax' tr' :
  run_sensorless_spin_up tr ax = Done status ax' tr' ->
  exists x ax1 tr1,
    run_control_loop spin_up_early_tick tr F32.zero ax = Done x ax1 tr1 /\
    ((error_ ax1 <> ERROR_NONE /\ status = false /\ ax' = ax1 /\ tr' = tr1) \/
     (error_ ax1 = ERROR_NONE /\
      vel_setpoint_ (controller_ ax') = spin_up_target_vel (config_ ax') /\
      status = check_for_errors ax')).
Proof.
  unfold run_sensorless_spin_up.
  destruct (run_control_loop spin_up_early_tick tr F32.zero ax)
    as [x ax1 tr1|]; [|discriminate].
  intros H. exists x, ax1, tr1. split; [reflexivity|].
  destruct (error_ ax1 =? ERROR_NONE) eqn:He; simpl in H.
  - right. apply Z.eqb_eq in He. split; [exact He|].
    destruct (run_control_loop spin_up_late_tick tr1 _ ax1)
      as [l ax2 tr2|]; [|discriminate].
    injection H as <- <- <-.
    split; [|reflexivity].
    now rewrite vel_setpoint_assigned, config_with_controller.
  - left. apply Z.eqb_neq in He. injection H as <- <- <-. now repeat split.
Qed.

End SpinUpProperties.

Lemma spin_up_exit_witness :
  run_sensorless_spin_up (replicate 5 Bench.cycle)
    (Bench.spinning_up (F32.of_int 7))
  = Done false
      (outcome_axis (run_sensorless_spin_up (replicate 5 Bench.cycle)
                       (Bench.spinning_up (F32.of_int 7))))
      (replicate 2 Bench.cycle)
  /\ error_ (outcome_axis (run_sensorless_spin_up (replicate 5 Bench.cycle)
                             (Bench.spinning_up (F32.of_int 7))))
     = ERROR_MOTOR_FAILED
  /\ exists x ax1 tr1,
       run_control_loop spin_up_early_tick (replicate 5 Bench.cycle) F32.zero
         (Bench.spinning_up (F32.of_int 7)) = Done x ax1 tr1 /\
       ((error_ ax1 <> ERROR_NONE /\ false = false /\
         outcome_axis (run_sensorless_spin_up (replicate 5 Bench.cycle)
                         (Bench.spinning_up (F32.of_int 7))) = ax1 /\
         replicate 2 Bench.cycle = tr1) \/
        (error_ ax1 = ERROR_NONE /\
         vel_setpoint_
           (controller_
              (outcome_axis (run_sensorless_spin_up (replicate 5 Bench.cycle)
                               (Bench.spinning_up (F32.of_int 7)))))
         = spin_up_target_vel
             (config_
                (outcome_axis (run_sensorless_spin_up (replicate 5 Bench.cycle)
                                 (Bench.spinning_up (F32.of_int 7))))) /\
         false = check_for_errors
                   (outcome_axis (run_sensorless_spin_up (replicate 5 Bench.cycle)
                                    (Bench.spinning_up (F32.of_int 7)))))).
Proof.
  assert (h : run_sensorless_spin_up (replicate 5 Bench.cycle)
                (Bench.spinning_up (F32.of_int 7))
              = Done false
                  (outcome_axis (run_sensorless_spin_up (replicate 5 Bench.cycle)
                                   (Bench.spinning_up (F32.of_int 7))))
                  (replicate 2 Bench.cycle))
    by (vm_compute; reflexivity).
  split; [exact h|]. split; [vm_compute; reflexivity|].
  exact (spin_up_exit _ _ _ _ _ h).
Defined.

(** C8 (as stated) fails: when the motor update fails in the early stage,
    [run_sensorless_spin_up] returns false with MotorFailed set and
    [vel_setpoint_] still at the zero it had on entry, not at
    [spin_up_target_vel] (400). *)
Lemma spin_up_early_failure_skips_vel_setpoint :
  match run_sensorless_spin_up (replicate 5 Bench.cycle)
          (Bench.spinning_up (F32.of_int (-1))) with
  | Done status ax' _ =>
      status = false /\
      error_ ax' = ERROR_MOTOR_FAILED /\
      vel_setpoint_ (controller_ ax') = F32.zero /\
      spin_up_target_vel (config_ ax') = F32.of_int 400 /\
      vel_setpoint_ (controller_ ax') <> spin_up_target_vel (config_ ax')
  | Blocked _ => False
  end.
Proof. vm_compute. repeat split. discriminate. Qed.

(** ** Properties of the homing sub-machine *)

Section HomingProperties.
Context {Input Periph : Type} {C : Collaborators Input Periph}.
Implicit Type ax : Axis Periph.

(** While homing, a tick in which neither the current endstop is asserted
    nor [found_end] holds leaves the axis untouched. *)
Lemma homing_tick_idle ax :
  homing_state_ ax = HOMING_STATE_HOMING ->
  getEndstopState (current_endstop ax) = false ->
  found_end ax = false ->
  homing_tick ax = (true, ax).
Proof.
  intros Hh He Hf. unfold homing_tick. now rewrite Hh, He, Hf.
Qed.

(** C4 (as the code has it).  While homing, a tick changes the phase (the
    flag [finding_min_endstop] or [homing_state_]) only when the current
    endstop is asserted or when, at that tick, the velocity estimate
    compares equal to zero and [loop_counter_] has reached the deadline
    [loop_counter_check] that was set when the phase began.  The velocity
    of the ticks before is not part of the condition. *)
Theorem homing_transition_condition ax :
  homing_state_ ax = HOMING_STATE_HOMING ->
  finding_min_endstop (snd (homing_tick ax)) <> finding_min_endstop ax \/
  homing_state_ (snd (homing_tick ax)) <> homing_state_ ax ->
  getEndstopState (current_endstop ax) = true \/
  (F32.eqb (enc_vel_estimate_ (encoder_ ax)) F32.zero = true /\
   loop_counter_check ax <= loop_counter_ ax).
Proof.
  intros Hh Hchange.
  destruct (getEndstopState (current_endstop ax)) eqn:He; [now left|].
  destruct (found_end ax) eqn:Hf.
  - right. unfold found_end in Hf.
    apply andb_prop in Hf as [Hv Hc]. split; [exact Hv|].
    now apply Z.leb_le.
  - rewrite (homing_tick_idle ax Hh He Hf) in Hchange.
    simpl in Hchange. now destruct Hchange.
Qed.

(** C5 (as the code has it).  In a closed-loop tick whose controller and
    motor updates succeed and leave the axis in the MoveToZero phase with
    the min endstop asserted, the tick body does nothing more: it returns
    true and the axis is as the two updates left it, so [homing_state_]
    stays MoveToZero. *)
Theorem move_to_zero_endstop_asserted ax current_setpoint ax1 ax2 :
  controller_update (enc_pos_estimate_ (encoder_ ax))
                    (enc_vel_estimate_ (encoder_ ax)) ax
    = (true, current_setpoint, ax1) ->
  motor_update current_setpoint (enc_phase_ (encoder_ ax1)) ax1 = (true, ax2) ->
  homing_state_ ax2 = HOMING_STATE_MOVE_TO_ZERO ->
  getEndstopState (min_endstop_ ax2) = true ->
  homing_tick ax2 = (true, ax2) /\
  closed_loop_tick ax = (true, ax2) /\
  homing_state_ (snd (closed_loop_tick ax)) = HOMING_STATE_MOVE_TO_ZERO.
Proof.
  intros Hc Hm Hh He.
  assert (Ht : homing_tick ax2 = (true, ax2))
    by (unfold homing_tick; now rewrite Hh, He).
  assert (Hcl : closed_loop_tick ax = (true, ax2))
    by (unfold closed_loop_tick; now rewrite Hc, Hm).
  split; [exact Ht|]. split; [exact Hcl|]. now rewrite Hcl.
Qed.

Lemma min_endstop_with_min_endstop (e : Endstop) ax :
  min_endstop_ (with_min_endstop e ax) = e.
Proof. destruct ax; reflexivity. Qed.

Lemma min_endstop_with_max_endstop (e : Endstop) ax :
  min_endstop_ (with_max_endstop e ax) = min_endstop_ ax.
Proof. destruct ax; reflexivity. Qed.

Lemma max_endstop_with_max_endstop (e : Endstop) ax :
  max_endstop_ (with_max_endstop e ax) = e.
Proof. destruct ax; reflexivity. Qed.

(** C6 (as the code has it).  On the seek-max transition with a positive
    [home_percentage] p, and with [total_cpr] the encoder's shadow count
    minus the count held in [min_endstop_.offset_from_home], the code sets
    [min_endstop_.offset_from_home] to [percentage_offset total_cpr p], the
    single-precision product of [-total_cpr] and [p / 100] with its
    fractional part dropped; sets [max_endstop_.offset_from_home] to
    [total_cpr] plus that new offset; calls [encoder_.set_linear_count]
    with the negated new offset; then commands position setpoint 0 and
    enters MoveToZero. *)
Theorem seek_max_transition ax :
  homing_state_ ax = HOMING_STATE_HOMING ->
  finding_min_endstop ax = false ->
  getEndstopState (max_endstop_ ax) || found_end ax = true ->
  F32.ltb F32.zero (home_percentage (es_config_ (min_endstop_ ax))) = true ->
  exists ax1,
    offset_from_home (min_endstop_ ax1)
      = percentage_offset (total_cpr ax)
          (home_percentage (es_config_ (min_endstop_ ax))) /\
    offset_from_home (max_endstop_ ax1)
      = wrap_i32 (total_cpr ax + offset_from_home (min_endstop_ ax1)) /\
    ax1 = with_max_endstop (max_endstop_ ax1)
            (with_min_endstop (min_endstop_ ax1) ax) /\
    homing_tick ax =
      (true,
       with_homing_state HOMING_STATE_MOVE_TO_ZERO
         (controller_set_pos_setpoint F32.zero F32.zero F32.zero
            (encoder_set_linear_count
               (wrap_i32 (- offset_from_home (min_endstop_ ax1))) ax1))).
Proof.
  intros Hh Hf He Hp.
  eexists. split; [|split; [|split]]; cycle 3.
  - unfold homing_tick. rewrite Hh. unfold current_endstop. rewrite Hf, He.
    unfold homing_max_found. rewrite Hp. reflexivity.
  - now rewrite min_endstop_with_max_endstop, min_endstop_with_min_endstop.
  - now rewrite max_endstop_with_max_endstop, min_endstop_with_max_endstop.
  - now rewrite max_endstop_with_max_endstop, min_endstop_with_max_endstop,
      min_endstop_with_min_endstop.
Qed.

End HomingProperties.

(** *** Homing on the bench *)

Lemma homing_transition_condition_witness :
  homing_state_ (Bench.homing 1 F32.zero) = HOMING_STATE_HOMING
  /\ (finding_min_endstop (snd (homing_tick (Bench.homing 1 F32.zero)))
        <> finding_min_endstop (Bench.homing 1 F32.zero) \/
      homing_state_ (snd (homing_tick (Bench.homing 1 F32.zero)))
        <> homing_state_ (Bench.homing 1 F32.zero))
  /\ (getEndstopState (current_endstop (Bench.homing 1 F32.zero)) = true \/
      (F32.eqb (enc_vel_estimate_ (encoder_ (Bench.homing 1 F32.zero))) F32.zero
         = true /\
       loop_counter_check (Bench.homing 1 F32.zero)
         <= loop_counter_ (Bench.homing 1 F32.zero))).
Proof.
  assert (h1 : homing_state_ (Bench.homing 1 F32.zero) = HOMING_STATE_HOMING)
    by reflexivity.
  assert (h2 : finding_min_endstop (snd (homing_tick (Bench.homing 1 F32.zero)))
                 <> finding_min_endstop (Bench.homing 1 F32.zero) \/
               homing_state_ (snd (homing_tick (Bench.homing 1 F32.zero)))
                 <> homing_state_ (Bench.homing 1 F32.zero))
    by (left; vm_compute; discriminate).
  split; [exact h1|]. split; [exact h2|].
  exact (homing_transition_condition _ h1 h2).
Defined.

(** C4 (as stated) fails.  The min endstop's window is 1 ms, that is 8
    control cycles.  For the 8 cycles of the window the axis moves (the
    velocity estimate is 100, not zero) and no endstop is pressed; after
    them the seek-min phase is still on and the deadline is reached.  One
    single cycle with a zero velocity estimate then ends the phase: the
    transition is taken although the velocity was not zero at any tick of
    the window. *)
Lemma homing_timeout_ignores_earlier_velocity :
  forallb (fun i => negb (F32.eqb (Bench.vel i) F32.zero)
                    && negb (Bench.min_pressed i) && negb (Bench.max_pressed i))
          (replicate 8 Bench.cycle) = true
  /\ match run_closed_loop_control_loop (replicate 8 Bench.cycle)
             (Bench.homing 1 F32.zero) with
     | Blocked ax' =>
         homing_state_ ax' = HOMING_STATE_HOMING /\
         finding_min_endstop ax' = true /\
         loop_counter_ ax' = 8 /\ loop_counter_check ax' = 8
     | Done _ _ _ => False
     end
  /\ match run_closed_loop_control_loop
             (replicate 8 Bench.cycle
                ++ [Bench.cycle_with F32.zero 5000 false false])
             (Bench.homing 1 F32.zero) with
     | Blocked ax' =>
         finding_min_endstop ax' = false /\
         getEndstopState (min_endstop_ ax') = false /\
         offset_from_home (min_endstop_ ax') = 5000
     | Done _ _ _ => False
     end.
Proof. vm_compute. repeat split. Qed.

Lemma move_to_zero_endstop_asserted_witness :
  controller_update (enc_pos_estimate_ (encoder_ Bench.moving_to_zero))
                    (enc_vel_estimate_ (encoder_ Bench.moving_to_zero))
                    Bench.moving_to_zero
    = (true, F32.zero, Bench.moving_to_zero)
  /\ motor_update F32.zero (enc_phase_ (encoder_ Bench.moving_to_zero))
                  Bench.moving_to_zero
     = (true, Bench.moving_to_zero)
  /\ homing_state_ Bench.moving_to_zero = HOMING_STATE_MOVE_TO_ZERO
  /\ getEndstopState (min_endstop_ Bench.moving_to_zero) = true
  /\ homing_tick Bench.moving_to_zero = (true, Bench.moving_to_zero)
  /\ closed_loop_tick Bench.moving_to_zero = (true, Bench.moving_to_zero)
  /\ homing_state_ (snd (closed_loop_tick Bench.moving_to_zero))
     = HOMING_STATE_MOVE_TO_ZERO.
Proof.
  assert (h1 : controller_update
                 (enc_pos_estimate_ (encoder_ Bench.moving_to_zero))
                 (enc_vel_estimate_ (encoder_ Bench.moving_to_zero))
                 Bench.moving_to_zero
               = (true, F32.zero, Bench.moving_to_zero)) by reflexivity.
  assert (h2 : motor_update F32.zero (enc_phase_ (encoder_ Bench.moving_to_zero))
                 Bench.moving_to_zero
               = (true, Bench.moving_to_zero)) by reflexivity.
  assert (h3 : homing_state_ Bench.moving_to_zero = HOMING_STATE_MOVE_TO_ZERO)
    by reflexivity.
  assert (h4 : getEndstopState (min_endstop_ Bench.moving_to_zero) = true)
    by reflexivity.
  split; [exact h1|]. split; [exact h2|]. split; [exact h3|]. split; [exact h4|].
  exact (move_to_zero_endstop_asserted _ _ _ _ h1 h2 h3 h4).
Defined.

(** C5 (as stated) fails: in the MoveToZero phase with the min endstop
    asserted, a closed-loop tick leaves [homing_state_] at MoveToZero, and
    so do three control cycles of the closed loop with the endstop held. *)
Lemma move_to_zero_does_not_exit :
  homing_state_ Bench.moving_to_zero = HOMING_STATE_MOVE_TO_ZERO
  /\ getEndstopState (min_endstop_ Bench.moving_to_zero) = true
  /\ homing_state_ (snd (closed_loop_tick Bench.moving_to_zero))
     = HOMING_STATE_MOVE_TO_ZERO
  /\ homing_state_ (snd (closed_loop_tick Bench.moving_to_zero))
     <> HOMING_STATE_INACTIVE
  /\ match run_closed_loop_control_loop
             (replicate 3 (Bench.cycle_with F32.zero 0 true false))
             Bench.moving_to_zero with
     | Blocked ax' =>
         loop_counter_ ax' = 3 /\
         getEndstopState (min_endstop_ ax') = true /\
         homing_state_ ax' = HOMING_STATE_MOVE_TO_ZERO
     | Done _ _ _ => False
     end.
Proof. vm_compute. repeat split. discriminate. Qed.

Lemma seek_max_transition_witness :
  homing_state_ (Bench.seeking_max 8192 0 (F32.of_int 25)) = HOMING_STATE_HOMING
  /\ finding_min_endstop (Bench.seeking_max 8192 0 (F32.of_int 25)) = false
  /\ getEndstopState (max_endstop_ (Bench.seeking_max 8192 0 (F32.of_int 25)))
     || found_end (Bench.seeking_max 8192 0 (F32.of_int 25)) = true
  /\ F32.ltb F32.zero
       (home_percentage
          (es_config_ (min_endstop_ (Bench.seeking_max 8192 0 (F32.of_int 25)))))
     = true
  /\ exists ax1,
       offset_from_home (min_endstop_ ax1)
         = percentage_offset
             (total_cpr (Bench.seeking_max 8192 0 (F32.of_int 25)))
             (home_percentage
                (es_config_
                   (min_endstop_ (Bench.seeking_max 8192 0 (F32.of_int 25))))) /\
       offset_from_home (max_endstop_ ax1)
         = wrap_i32 (total_cpr (Bench.seeking_max 8192 0 (F32.of_int 25))
                     + offset_from_home (min_endstop_ ax1)) /\
       ax1 = with_max_endstop (max_endstop_ ax1)
               (with_min_endstop (min_endstop_ ax1)
                  (Bench.seeking_max 8192 0 (F32.of_int 25))) /\
       homing_tick (Bench.seeking_max 8192 0 (F32.of_int 25)) =
         (true,
          with_homing_state HOMING_STATE_MOVE_TO_ZERO
            (controller_set_pos_setpoint F32.zero F32.zero F32.zero
               (encoder_set_linear_count
                  (wrap_i32 (- offset_from_home (min_endstop_ ax1))) ax1))).
Proof.
  assert (h1 : homing_state_ (Bench.seeking_max 8192 0 (F32.of_int 25))
               = HOMING_STATE_HOMING) by reflexivity.
  assert (h2 : finding_min_endstop (Bench.seeking_max 8192 0 (F32.of_int 25))
               = false) by reflexivity.
  assert (h3 : getEndstopState
                 (max_endstop_ (Bench.seeking_max 8192 0 (F32.of_int 25)))
               || found_end (Bench.seeking_max 8192 0 (F32.of_int 25)) = true)
    by reflexivity.
  assert (h4 : F32.ltb F32.zero
                 (home_percentage
                    (es_config_
                       (min_endstop_ (Bench.seeking_max 8192 0 (F32.of_int 25)))))
               = true) by reflexivity.
  split; [exact h1|]. split; [exact h2|]. split; [exact h3|]. split; [exact h4|].
  exact (seek_max_transition _ h1 h2 h3 h4).
Defined.

(** With 8192 counts between the endstops and a home percentage of 25 the
    arithmetic is exact: the offsets are -2048 and 6144 and the linear
    count is 2048. *)
Example seek_max_quarter :
  offset_from_home
    (min_endstop_ (snd (homing_tick (Bench.seeking_max 8192 0 (F32.of_int 25)))))
  = -2048
  /\ offset_from_home
       (max_endstop_ (snd (homing_tick (Bench.seeking_max 8192 0 (F32.of_int 25)))))
     = 6144
  /\ Bench.linear_count
       (periph_ (snd (homing_tick (Bench.seeking_max 8192 0 (F32.of_int 25)))))
     = 2048
  /\ homing_state_ (snd (homing_tick (Bench.seeking_max 8192 0 (F32.of_int 25))))
     = HOMING_STATE_MOVE_TO_ZERO.
Proof. vm_compute. repeat split. Qed.

(** C6 (as stated) fails: with [total_cpr] = 900 and a home percentage of
    13, [total_cpr] x 13 / 100 is 117, but the single-precision product is
    just below 117 and its conversion to [int32_t] drops the fraction:
    [min_endstop_.offset_from_home] becomes -116 and the encoder's linear
    count 116.  The same holds for a whole homing run in which the min
    endstop is pressed at count 0 and the max endstop at count 900. *)
Lemma home_percentage_offset_truncated :
  total_cpr (Bench.seeking_max 900 0 (F32.of_int 13)) = 900
  /\ 900 * 13 = 117 * 100
  /\ offset_from_home
       (min_endstop_ (snd (homing_tick (Bench.seeking_max 900 0 (F32.of_int 13)))))
     = -116
  /\ Bench.linear_count
       (periph_ (snd (homing_tick (Bench.seeking_max 900 0 (F32.of_int 13)))))
     = 116
  /\ match run_closed_loop_control_loop
             [Bench.cycle_with (F32.of_int 100) 0 true false;
              Bench.cycle_with (F32.of_int 100) 900 false true]
             (Bench.homing 4000 (F32.of_int 13)) with
     | Blocked ax' =>
         homing_state_ ax' = HOMING_STATE_MOVE_TO_ZERO /\
         offset_from_home (min_endstop_ ax') = -116 /\
         offset_from_home (max_endstop_ ax') = 784 /\
         Bench.linear_count (periph_ ax') = 116
     | Done _ _ _ => False
     end.
Proof. vm_compute. repeat split. Qed.

(** *** Idle on the bench *)



(** Error bits alone do not hold the chain: a brake-resistor fault ends the
    idle loop with [error_] set, so that [run_idle_loop] returns false, yet
    the motor arms and the chain advances from Idle, Idle, Undefined to
    Idle, Undefined. *)
Example idle_advances_despite_errors :
  run_idle_loop [Bench.brake_fault_request_cycle]
    (validate_state (load_task_chain (Bench.request_of AXIS_STATE_IDLE)))
  = Done false
      (outcome_axis
         (run_idle_loop [Bench.brake_fault_request_cycle]
            (validate_state
               (load_task_chain (Bench.request_of AXIS_STATE_IDLE))))) []
  /\ take 3 (task_chain_ (load_task_chain (Bench.request_of AXIS_STATE_IDLE)))
       = [AXIS_STATE_IDLE; AXIS_STATE_IDLE; AXIS_STATE_UNDEFINED]
  /\ match state_machine_iteration [Bench.brake_fault_request_cycle]
             (Bench.request_of AXIS_STATE_IDLE) with
     | Done _ ax' rest =>
         rest = []
         /\ error_ ax' = ERROR_BRAKE_RESISTOR_DISARMED
         /\ armed_state_ (motor_ ax') = 1
         /\ take 2 (task_chain_ ax')
              = [AXIS_STATE_IDLE; AXIS_STATE_UNDEFINED]
     | Blocked _ => False
     end.
Proof. vm_compute. repeat split. Qed.

(** With a motor that refuses to arm, the axis idles again and again: each
    iteration disarms, idles for the cycle, fails to arm and stays in Idle
    with the chain where it was. *)
Example idle_again_when_arming_fails :
  match state_machine_iterations 3
          (replicate 3 Bench.brake_fault_cycle) Bench.idle_unarmable with
  | Done _ ax' rest =>
      rest = [] /\
      take 3 (task_chain_ ax')
        = [AXIS_STATE_IDLE; AXIS_STATE_IDLE; AXIS_STATE_UNDEFINED] /\
      armed_state_ (motor_ ax') = ARMED_STATE_DISARMED /\
      loop_counter_ ax' = 3
  | Blocked _ => False
  end.
Proof. vm_compute. repeat split. Qed.

(** * Further properties of the code *)

(** ** Loading the task chain *)

Section TaskChainLoading.
Context {Input Periph : Type} {C : Collaborators Input Periph}.
Implicit Type ax : Axis Periph.
Implicit Type tr : list Input.

(** Writing [s] behind the entries [pre] already written into [tc]. *)
Lemma push_written s pre (tc : list State_t) :
  (length pre < length tc)%nat ->
  push s (pre ++ drop (length pre) tc, length pre)
  = ((pre ++ [s]) ++ drop (length (pre ++ [s])) tc, length (pre ++ [s])).
Proof.
  intros Hlen. unfold push. simpl.
  rewrite length_app. simpl.
  replace (length pre + 1)%nat with (S (length pre)) by lia.
  f_equal.
  destruct (drop (length pre) tc) as [|x rest] eqn:Hd.
  - apply (f_equal length) in Hd. rewrite length_drop in Hd. simpl in Hd. lia.
  - rewrite insert_app_r_alt by lia. rewrite Nat.sub_diag. simpl.
    rewrite <- app_assoc. simpl. do 2 f_equal.
    replace (S (length pre)) with (length pre + 1)%nat by lia.
    rewrite <- drop_drop, Hd. reflexivity.
Qed.

(** The entries a request expands to, in the order they are written. *)
Lemma expand_request_written ax :
  (7 <= length (task_chain_ ax))%nat ->
  exists pre,
    expand_request ax (task_chain_ ax, 0%nat)
      = (pre ++ drop (length pre) (task_chain_ ax), length pre) /\
    (length pre <= 6)%nat /\
    pre =
      if bool_decide (requested_state_ ax = AXIS_STATE_STARTUP_SEQUENCE) then
        (if startup_motor_calibration (config_ ax)
         then [AXIS_STATE_MOTOR_CALIBRATION] else [])
        ++ (if startup_encoder_index_search (config_ ax)
               && enc_use_index (encoder_ ax)
            then [AXIS_STATE_ENCODER_INDEX_SEARCH] else [])
        ++ (if startup_encoder_offset_calibration (config_ ax)
            then [AXIS_STATE_ENCODER_OFFSET_CALIBRATION] else [])
        ++ (if startup_closed_loop_control (config_ ax)
            then (if startup_homing (config_ ax) then [AXIS_STATE_HOMING] else [])
                 ++ [AXIS_STATE_CLOSED_LOOP_CONTROL]
            else if startup_sensorless_control (config_ ax)
                 then [AXIS_STATE_SENSORLESS_CONTROL] else [])
        ++ [AXIS_STATE_IDLE]
      else if bool_decide (requested_state_ ax = AXIS_STATE_HOMING) then
        [AXIS_STATE_HOMING; AXIS_STATE_CLOSED_LOOP_CONTROL; AXIS_STATE_IDLE]
      else if bool_decide
                (requested_state_ ax = AXIS_STATE_FULL_CALIBRATION_SEQUENCE) then
        AXIS_STATE_MOTOR_CALIBRATION
          :: (if enc_use_index (encoder_ ax)
              then [AXIS_STATE_ENCODER_INDEX_SEARCH] else [])
          ++ [AXIS_STATE_ENCODER_OFFSET_CALIBRATION; AXIS_STATE_IDLE]
      else if bool_decide (requested_state_ ax = AXIS_STATE_UNDEFINED) then []
      else [requested_state_ ax; AXIS_STATE_IDLE].
Proof.
  intros Hlen.
  destruct ax as [cfg enc ? ? ? ? ? ? ? rs tc ? ? ? ? ?]; simpl in *.
  destruct tc as [|t0 [|t1 [|t2 [|t3 [|t4 [|t5 [|t6 tl]]]]]]];
    simpl in Hlen; try lia.
  eexists. split; [|split]; cycle 2; [reflexivity| |].
  - unfold expand_request, push_if, push; simpl.
    repeat case_bool_decide; simpl;
    repeat match goal with
           | |- context [if ?b then _ else _] => destruct b
           end; reflexivity.
  - repeat case_bool_decide;
    repeat match goal with
           | |- context [if ?b then _ else _] => destruct b
           end; simpl; lia.
Qed.

Lemma elem_of_decide (x : State_t) (l : list State_t) :
  x ∈ l <-> bool_decide (x ∈ l) = true.
Proof. symmetry. apply bool_decide_eq_true. Qed.

Ltac decide_elem :=
  first
    [ reflexivity
    | apply elem_of_decide; vm_compute; reflexivity
    | exfalso;
      match goal with
      | H : _ ∈ _ |- _ => apply elem_of_decide in H; vm_compute in H; discriminate
      | H : _ /\ _ |- _ => destruct H; discriminate
      | H : _ = _ |- _ => discriminate
      end ].

Lemma requested_state_load ax :
  requested_state_ (load_task_chain ax) = AXIS_STATE_UNDEFINED.
Proof.
  unfold load_task_chain. case_bool_decide as Hr; simpl.
  - exact Hr.
  - now destruct ax.
Qed.

Lemma task_chain_load ax :
  requested_state_ ax <> AXIS_STATE_UNDEFINED ->
  task_chain_ (load_task_chain ax)
  = fst (push AXIS_STATE_UNDEFINED
           (expand_request ax (task_chain_ ax, 0%nat))).
Proof.
  intros Hr. unfold load_task_chain.
  rewrite bool_decide_false by assumption. simpl. now destruct ax.
Qed.

(** X1.  Whatever the request and the configuration, a load writes at most
    seven entries: the old chain is overwritten by between one and six
    concrete states, the last of them Idle and none of them Undefined,
    followed by the Undefined terminator; the entries behind the
    terminator are not touched.  An array of seven entries or more is never
    written out of bounds. *)
Theorem load_task_chain_shape ax :
  requested_state_ ax <> AXIS_STATE_UNDEFINED ->
  (7 <= length (task_chain_ ax))%nat ->
  exists pre,
    task_chain_ (load_task_chain ax)
      = pre ++ AXIS_STATE_UNDEFINED :: drop (S (length pre)) (task_chain_ ax) /\
    (1 <= length pre <= 6)%nat /\
    last pre = Some AXIS_STATE_IDLE /\
    AXIS_STATE_UNDEFINED ∉ pre.
Proof.
  intros Hr Hlen.
  destruct (expand_request_written ax Hlen) as (pre & Hexp & Hpre & Hdef).
  exists pre. rewrite (task_chain_load ax Hr), Hexp.
  rewrite push_written by lia. simpl.
  rewrite <- app_assoc, length_app. simpl.
  replace (length pre + 1)%nat with (S (length pre)) by lia.
  split; [reflexivity|].
  rewrite Hdef. clear Hexp Hpre Hdef.
  repeat case_bool_decide; try contradiction;
    repeat match goal with
           | |- context [if ?b then _ else _] => destruct b
           end; simpl;
    (split; [lia|]); (split; [reflexivity|]);
    rewrite elem_of_decide; try (vm_compute; discriminate);
    rewrite bool_decide_eq_true, !elem_of_cons, elem_of_nil; intuition congruence.
Qed.

(** X2.  A StartupSequence request loads, in this order and each only if
    its configuration flags say so, MotorCalibration, EncoderIndexSearch
    (which also needs the encoder's use_index), EncoderOffsetCalibration,
    Homing (only together with closed-loop control), then either
    ClosedLoopControl or, only when closed-loop control is off,
    SensorlessControl, and always Idle before the terminator. *)
Theorem load_startup_sequence ax :
  requested_state_ ax = AXIS_STATE_STARTUP_SEQUENCE ->
  (7 <= length (task_chain_ ax))%nat ->
  exists pre,
    task_chain_ (load_task_chain ax)
      = pre ++ AXIS_STATE_UNDEFINED :: drop (S (length pre)) (task_chain_ ax) /\
    pre `sublist_of`
      [AXIS_STATE_MOTOR_CALIBRATION; AXIS_STATE_ENCODER_INDEX_SEARCH;
       AXIS_STATE_ENCODER_OFFSET_CALIBRATION; AXIS_STATE_HOMING;
       AXIS_STATE_CLOSED_LOOP_CONTROL; AXIS_STATE_SENSORLESS_CONTROL;
       AXIS_STATE_IDLE] /\
    (AXIS_STATE_MOTOR_CALIBRATION ∈ pre
       <-> startup_motor_calibration (config_ ax) = true) /\
    (AXIS_STATE_ENCODER_INDEX_SEARCH ∈ pre
       <-> startup_encoder_index_search (config_ ax) = true
           /\ enc_use_index (encoder_ ax) = true) /\
    (AXIS_STATE_ENCODER_OFFSET_CALIBRATION ∈ pre
       <-> startup_encoder_offset_calibration (config_ ax) = true) /\
    (AXIS_STATE_HOMING ∈ pre
       <-> startup_closed_loop_control (config_ ax) = true
           /\ startup_homing (config_ ax) = true) /\
    (AXIS_STATE_CLOSED_LOOP_CONTROL ∈ pre
       <-> startup_closed_loop_control (config_ ax) = true) /\
    (AXIS_STATE_SENSORLESS_CONTROL ∈ pre
       <-> startup_closed_loop_control (config_ ax) = false
           /\ startup_sensorless_control (config_ ax) = true) /\
    AXIS_STATE_IDLE ∈ pre.
Proof.
  intros Hr Hlen.
  assert (Hu : requested_state_ ax <> AXIS_STATE_UNDEFINED) by now rewrite Hr.
  destruct (expand_request_written ax Hlen) as (pre & Hexp & Hpre & Hdef).
  exists pre. rewrite (task_chain_load ax Hu), Hexp.
  rewrite push_written by lia. simpl.
  rewrite <- app_assoc, length_app. simpl.
  replace (length pre + 1)%nat with (S (length pre)) by lia.
  split; [reflexivity|].
  rewrite Hdef, Hr. clear Hexp Hpre Hdef. simpl.
  destruct (startup_motor_calibration (config_ ax)),
    (startup_encoder_index_search (config_ ax)),
    (enc_use_index (encoder_ ax)),
    (startup_encoder_offset_calibration (config_ ax)),
    (startup_closed_loop_control (config_ ax)),
    (startup_homing (config_ ax)),
    (startup_sensorless_control (config_ ax)); simpl;
    (split;
     [repeat first [apply sublist_nil | apply sublist_skip | apply sublist_cons]|]);
    repeat split; intros; decide_elem.
Qed.


(** X3.  A Homing request loads Homing, ClosedLoopControl, Idle and the
    terminator, in whatever configuration. *)
Theorem load_homing_request ax :
  requested_state_ ax = AXIS_STATE_HOMING ->
  (4 <= length (task_chain_ ax))%nat ->
  task_chain_ (load_task_chain ax)
  = AXIS_STATE_HOMING :: AXIS_STATE_CLOSED_LOOP_CONTROL :: AXIS_STATE_IDLE
      :: AXIS_STATE_UNDEFINED :: drop 4 (task_chain_ ax).
Proof.
  intros Hr Hlen.
  rewrite task_chain_load by now rewrite Hr.
  unfold expand_request. rewrite Hr. simpl.
  destruct (task_chain_ ax) as [|t0 [|t1 [|t2 [|t3 tl]]]];
    simpl in Hlen; try lia.
  reflexivity.
Qed.

(** X4.  A FullCalibrationSequence request loads MotorCalibration,
    EncoderIndexSearch if the encoder uses its index,
    EncoderOffsetCalibration, Idle and the terminator; the startup flags
    play no part. *)
Theorem load_full_calibration_sequence ax :
  requested_state_ ax = AXIS_STATE_FULL_CALIBRATION_SEQUENCE ->
  (5 <= length (task_chain_ ax))%nat ->
  task_chain_ (load_task_chain ax)
  = if enc_use_index (encoder_ ax)
    then AXIS_STATE_MOTOR_CALIBRATION :: AXIS_STATE_ENCODER_INDEX_SEARCH
           :: AXIS_STATE_ENCODER_OFFSET_CALIBRATION :: AXIS_STATE_IDLE
           :: AXIS_STATE_UNDEFINED :: drop 5 (task_chain_ ax)
    else AXIS_STATE_MOTOR_CALIBRATION
           :: AXIS_STATE_ENCODER_OFFSET_CALIBRATION :: AXIS_STATE_IDLE
           :: AXIS_STATE_UNDEFINED :: drop 4 (task_chain_ ax).
Proof.
  intros Hr Hlen.
  rewrite task_chain_load by now rewrite Hr.
  unfold expand_request. rewrite Hr. simpl.
  destruct (task_chain_ ax) as [|t0 [|t1 [|t2 [|t3 [|t4 tl]]]]];
    simpl in Hlen; try lia.
  now destruct (enc_use_index (encoder_ ax)).
Qed.

(** X5.  The load consumes the request: loading a second time changes
    nothing, and with no request pending the load leaves the axis as it
    is. *)
Theorem load_task_chain_idempotent ax :
  load_task_chain (load_task_chain ax) = load_task_chain ax /\
  (requested_state_ ax = AXIS_STATE_UNDEFINED -> load_task_chain ax = ax).
Proof.
  split.
  - unfold load_task_chain at 1.
    now rewrite requested_state_load, bool_decide_true.
  - intros Hr. unfold load_task_chain. now rewrite Hr.
Qed.

End TaskChainLoading.

(** ** Validation and dispatch *)

Section ValidationAndDispatch.
Context {Input Periph : Type} {C : Collaborators Input Periph}.
Implicit Type ax : Axis Periph.
Implicit Type tr : list Input.

(** Validation either leaves the axis alone or overwrites the head of the
    chain with Undefined. *)
Lemma validate_state_cases ax :
  validate_state ax = ax \/
  validate_state ax = set_current_state AXIS_STATE_UNDEFINED ax.
Proof.
  unfold validate_state.
  destruct (_ && _); destruct (_ && _); auto.
  right. apply set_current_state_twice.
Qed.

Lemma validate_state_calibrated_ready ax :
  is_calibrated_ (motor_ ax) = true -> enc_is_ready_ (encoder_ ax) = true ->
  validate_state ax = ax.
Proof.
  intros Hc Hr. unfold validate_state.
  rewrite Hc. simpl negb. rewrite andb_false_r.
  rewrite Hr. simpl negb. now rewrite andb_false_r.
Qed.

(** X8.  Validation changes nothing but [task_chain_[0]], which it leaves
    or replaces by Undefined; with a calibrated motor and a ready encoder
    it changes nothing at all; and validating twice is the same as
    validating once. *)
Theorem validate_state_frame ax :
  (validate_state ax = ax \/
   validate_state ax = set_current_state AXIS_STATE_UNDEFINED ax) /\
  (is_calibrated_ (motor_ ax) = true -> enc_is_ready_ (encoder_ ax) = true ->
   validate_state ax = ax) /\
  validate_state (validate_state ax) = validate_state ax.
Proof.
  split; [apply validate_state_cases|]. split.
  - apply validate_state_calibrated_ready.
  - destruct (validate_state_cases ax) as [H | H]; rewrite H; [exact H|].
    destruct (validate_state_cases (set_current_state AXIS_STATE_UNDEFINED ax))
      as [H2 | H2]; rewrite H2; [reflexivity | apply set_current_state_twice].
Qed.

Lemma motor_set_current_state s ax :
  motor_ (set_current_state s ax) = motor_ ax.
Proof. destruct ax; reflexivity. Qed.

Lemma encoder_set_current_state s ax :
  encoder_ (set_current_state s ax) = encoder_ ax.
Proof. destruct ax; reflexivity. Qed.

Lemma validate_state_not_ready ax :
  state_rank AXIS_STATE_ENCODER_OFFSET_CALIBRATION < state_rank (current_state_ ax) ->
  enc_is_ready_ (encoder_ ax) = false ->
  validate_state ax = set_current_state AXIS_STATE_UNDEFINED ax.
Proof.
  intros Hrank Hready. unfold validate_state.
  apply Z.ltb_lt in Hrank.
  destruct (_ && negb (is_calibrated_ _)).
  - rewrite encoder_set_current_state, Hready.
    destruct (_ && _); [apply set_current_state_twice | reflexivity].
  - now rewrite Hrank, Hready.
Qed.

(** The iteration that finds Undefined in [current_state_] at dispatch. *)
Lemma iteration_invalid_state tr ax :
  (0 < length (task_chain_ ax))%nat ->
  validate_state (load_task_chain ax)
    = set_current_state AXIS_STATE_UNDEFINED (load_task_chain ax) ->
  exists ax2,
    state_machine_iteration tr ax = Done tt ax2 tr /\
    error_ ax2 = Z.lor (error_ (load_task_chain ax)) ERROR_INVALID_STATE /\
    current_state_ ax2 = AXIS_STATE_IDLE /\
    forall i : nat, (1 <= i)%nat ->
      task_chain_ ax2 !! i = task_chain_ (load_task_chain ax) !! i.
Proof.
  intros Hlen Hv. rewrite <- load_task_chain_length in Hlen.
  assert (Hcs : current_state_ (validate_state (load_task_chain ax))
                = AXIS_STATE_UNDEFINED)
    by (rewrite Hv; now apply current_state_set_current_state).
  eexists. split.
  - unfold state_machine_iteration.
    rewrite (dispatch_undefined _ _ Hcs). reflexivity.
  - unfold advance; simpl. rewrite Hv. split; [|split].
    + now rewrite error_set_current_state, error_or_error,
        error_set_current_state.
    + apply current_state_set_current_state.
      now rewrite task_chain_or_error, task_chain_set_current_state,
        length_insert.
    + intros i Hi.
      rewrite task_chain_set_current_state, task_chain_or_error,
        task_chain_set_current_state.
      rewrite !list_lookup_insert_ne by lia. reflexivity.
Qed.

Lemma encoder_load_task_chain ax : encoder_ (load_task_chain ax) = encoder_ ax.
Proof.
  unfold load_task_chain. destruct (negb _); [|reflexivity].
  destruct ax; reflexivity.
Qed.

(** X6.  In a loop iteration where [current_state_] is stricter than
    EncoderOffsetCalibration and the encoder is not ready, whether or not
    the motor is calibrated: [current_state_] is forced to Undefined, no
    handler runs and no input is consumed, the [ERROR_INVALID_STATE] bits
    are set and the axis falls to Idle without advancing the chain. *)
Theorem encoder_not_ready_falls_to_idle tr ax :
  (0 < length (task_chain_ ax))%nat ->
  enc_is_ready_ (encoder_ ax) = false ->
  state_rank AXIS_STATE_ENCODER_OFFSET_CALIBRATION
    < state_rank (current_state_ (load_task_chain ax)) ->
  current_state_ (validate_state (load_task_chain ax)) = AXIS_STATE_UNDEFINED /\
  exists ax2,
    state_machine_iteration tr ax = Done tt ax2 tr /\
    error_ ax2 = Z.lor (error_ (load_task_chain ax)) ERROR_INVALID_STATE /\
    current_state_ ax2 = AXIS_STATE_IDLE /\
    forall i : nat, (1 <= i)%nat ->
      task_chain_ ax2 !! i = task_chain_ (load_task_chain ax) !! i.
Proof.
  intros Hlen Hready Hrank.
  rewrite <- encoder_load_task_chain in Hready.
  pose proof (validate_state_not_ready _ Hrank Hready) as Hv.
  split.
  - rewrite Hv. apply current_state_set_current_state.
    now rewrite load_task_chain_length.
  - now apply iteration_invalid_state.
Qed.

(** X7.  A loop iteration that finds Undefined at the head of the chain
    (after boot, or when the chain has run past its last state), or one of
    the two sequence requests that have no handler of their own, runs no
    handler and consumes no input: it sets the [ERROR_INVALID_STATE] bits
    and puts Idle at the head of the chain. *)
Theorem no_handler_state_falls_to_idle tr ax :
  (0 < length (task_chain_ ax))%nat ->
  current_state_ (load_task_chain ax) = AXIS_STATE_UNDEFINED \/
  current_state_ (load_task_chain ax) = AXIS_STATE_STARTUP_SEQUENCE \/
  current_state_ (load_task_chain ax) = AXIS_STATE_FULL_CALIBRATION_SEQUENCE ->
  exists ax2,
    state_machine_iteration tr ax = Done tt ax2 tr /\
    error_ ax2 = Z.lor (error_ (load_task_chain ax)) ERROR_INVALID_STATE /\
    current_state_ ax2 = AXIS_STATE_IDLE /\
    forall i : nat, (1 <= i)%nat ->
      task_chain_ ax2 !! i = task_chain_ (load_task_chain ax) !! i.
Proof.
  intros Hlen Hcs.
  assert (Hlen' : (0 < length (task_chain_ (load_task_chain ax)))%nat)
    by now rewrite load_task_chain_length.
  set (ax1 := load_task_chain ax) in *.
  assert (Hd : dispatch tr (validate_state ax1)
               = Done false (or_error ERROR_INVALID_STATE (validate_state ax1)) tr).
  { destruct (validate_state_cases ax1) as [-> | ->].
    - unfold dispatch. now destruct Hcs as [-> | [-> | ->]].
    - apply dispatch_undefined. now apply current_state_set_current_state. }
  assert (Hchain : forall i : nat, (1 <= i)%nat ->
            task_chain_ (validate_state ax1) !! i = task_chain_ ax1 !! i).
  { intros i Hi. destruct (validate_state_cases ax1) as [-> | ->];
      [reflexivity|].
    rewrite task_chain_set_current_state. apply list_lookup_insert_ne. lia. }
  assert (Hvl : (0 < length (task_chain_ (validate_state ax1)))%nat).
  { destruct (validate_state_cases ax1) as [-> | ->]; [exact Hlen'|].
    now rewrite task_chain_set_current_state, length_insert. }
  assert (Hve : error_ (validate_state ax1) = error_ ax1).
  { destruct (validate_state_cases ax1) as [-> | ->];
      [reflexivity | apply error_set_current_state]. }
  eexists. split.
  - unfold state_machine_iteration. fold ax1. rewrite Hd. reflexivity.
  - unfold advance; simpl. split; [|split].
    + now rewrite error_set_current_state, error_or_error, Hve.
    + apply current_state_set_current_state. now rewrite task_chain_or_error.
    + intros i Hi.
      rewrite task_chain_set_current_state, task_chain_or_error.
      rewrite list_lookup_insert_ne by lia. now apply Hchain.
Qed.

Lemma task_chain_load_homing ax :
  requested_state_ ax = AXIS_STATE_HOMING ->
  (4 <= length (task_chain_ ax))%nat ->
  task_chain_ (load_task_chain ax)
  = AXIS_STATE_HOMING :: AXIS_STATE_CLOSED_LOOP_CONTROL :: AXIS_STATE_IDLE
      :: AXIS_STATE_UNDEFINED :: drop 4 (task_chain_ ax).
Proof.
  intros Hr Hlen.
  unfold load_task_chain. rewrite Hr. simpl.
  unfold expand_request. rewrite Hr. simpl.
  destruct ax as [? ? ? ? ? ? ? ? ? ? tc ? ? ? ? ?]; simpl in *.
  destruct tc as [|t0 [|t1 [|t2 [|t3 tl]]]]; simpl in Hlen; try lia.
  reflexivity.
Qed.

(** X17.  With a calibrated motor and a ready encoder, a Homing request
    dispatches [controller_.home_axis()] on the freshly loaded chain; when
    that returns true and has left the chain alone, the iteration ends with
    ClosedLoopControl in [current_state_], followed by Idle and the
    terminator. *)
Theorem homing_request_runs_home_axis tr ax :
  requested_state_ ax = AXIS_STATE_HOMING ->
  (4 <= length (task_chain_ ax))%nat ->
  is_calibrated_ (motor_ ax) = true ->
  enc_is_ready_ (encoder_ ax) = true ->
  dispatch tr (validate_state (load_task_chain ax))
    = controller_home_axis tr (load_task_chain ax) /\
  forall ax1 tr1,
    controller_home_axis tr (load_task_chain ax) = Done true ax1 tr1 ->
    task_chain_ ax1 = task_chain_ (load_task_chain ax) ->
    exists ax2,
      state_machine_iteration tr ax = Done tt ax2 tr1 /\
      current_state_ ax2 = AXIS_STATE_CLOSED_LOOP_CONTROL /\
      take 3 (task_chain_ ax2)
        = [AXIS_STATE_CLOSED_LOOP_CONTROL; AXIS_STATE_IDLE;
           AXIS_STATE_UNDEFINED].
Proof.
  intros Hr Hlen Hc Hready.
  pose proof (task_chain_load_homing ax Hr Hlen) as Htc.
  assert (Hv : validate_state (load_task_chain ax) = load_task_chain ax)
    by (apply validate_state_calibrated_ready;
        [now rewrite load_task_chain_motor | now rewrite encoder_load_task_chain]).
  assert (Hd : dispatch tr (validate_state (load_task_chain ax))
               = controller_home_axis tr (load_task_chain ax)).
  { rewrite Hv. unfold dispatch, current_state_. now rewrite Htc. }
  split; [exact Hd|].
  intros ax1 tr1 Hh Hsame.
  exists (advance true ax1). split.
  - unfold state_machine_iteration. now rewrite Hd, Hh.
  - unfold advance, current_state_; simpl.
    rewrite task_chain_with_task_chain, Hsame, Htc. simpl. now split.
Qed.

End ValidationAndDispatch.

(** ** The control-loop handlers *)

Section HandlerProperties.
Context {Input Periph : Type} {C : Collaborators Input Periph}.
Implicit Type ax : Axis Periph.
Implicit Type tr : list Input.

Lemma enable_step_dir_set_step_dir_enabled b ax :
  enable_step_dir_ (set_step_dir_enabled b ax) = b.
Proof. destruct ax; reflexivity. Qed.

(** X9.  Whenever the closed-loop or the sensorless control loop returns,
    however the loop ended, step/direction input is disabled, the status
    returned says whether [error_] is [ERROR_NONE], and a step edge that
    still arrives leaves the axis as it is. *)
Theorem control_loop_exit_disables_step_dir tr ax status ax' tr' :
  run_closed_loop_control_loop tr ax = Done status ax' tr' \/
  run_sensorless_control_loop tr ax = Done status ax' tr' ->
  enable_step_dir_ ax' = false /\
  status = check_for_errors ax' /\
  forall pin, step_cb pin ax' = ax'.
Proof.
  assert (Hstep : forall a : Axis Periph,
            enable_step_dir_ (set_step_dir_enabled false a) = false /\
            forall pin, step_cb pin (set_step_dir_enabled false a)
                        = set_step_dir_enabled false a).
  { intros a. split; [apply enable_step_dir_set_step_dir_enabled|].
    intros pin. unfold step_cb.
    now rewrite enable_step_dir_set_step_dir_enabled. }
  intros [H | H].
  - unfold run_closed_loop_control_loop in H.
    destruct (run_control_loop _ tr tt _) as [u a r|]; [|discriminate].
    injection H as <- <- <-. destruct (Hstep a). now repeat split.
  - unfold run_sensorless_control_loop in H.
    destruct (run_control_loop _ tr tt _) as [u a r|]; [|discriminate].
    injection H as <- <- <-. destruct (Hstep a). now repeat split.
Qed.

(** X10.  A closed-loop tick asks to stop only if the controller update
    failed (ControllerFailed is set), or the motor update failed, or, with
    homing inactive, an enabled endstop is pressed; the min endstop is
    looked at first, so when both are pressed only MinEndstopPressed is
    set.  While homing or moving to zero the endstops never stop the
    loop. *)
Theorem closed_loop_tick_failure ax ax' :
  closed_loop_tick ax = (false, ax') ->
  exists ok current_setpoint ax1,
    controller_update (enc_pos_estimate_ (encoder_ ax))
                      (enc_vel_estimate_ (encoder_ ax)) ax
      = (ok, current_setpoint, ax1) /\
    ((ok = false /\ ax' = or_error ERROR_CONTROLLER_FAILED ax1) \/
     (ok = true /\
      motor_update current_setpoint (enc_phase_ (encoder_ ax1)) ax1
        = (false, ax')) \/
     (ok = true /\
      exists ax2,
        motor_update current_setpoint (enc_phase_ (encoder_ ax1)) ax1
          = (true, ax2) /\
        homing_state_ ax2 = HOMING_STATE_INACTIVE /\
        ((enabled (es_config_ (min_endstop_ ax2)) = true /\
          getEndstopState (min_endstop_ ax2) = true /\
          ax' = or_error ERROR_MIN_ENDSTOP_PRESSED ax2) \/
         (enabled (es_config_ (min_endstop_ ax2))
            && getEndstopState (min_endstop_ ax2) = false /\
          enabled (es_config_ (max_endstop_ ax2)) = true /\
          getEndstopState (max_endstop_ ax2) = true /\
          ax' = or_error ERROR_MAX_ENDSTOP_PRESSED ax2)))).
Proof.
  unfold closed_loop_tick.
  destruct (controller_update _ _ ax) as [[ok cs] ax1].
  intros H. exists ok, cs, ax1. split; [reflexivity|].
  destruct ok; simpl in H.
  - right.
    destruct (motor_update cs _ ax1) as [ok2 ax2] eqn:Hm.
    destruct ok2; simpl in H.
    + right. split; [reflexivity|]. exists ax2. split; [reflexivity|].
      unfold homing_tick in H.
      destruct (homing_state_ ax2) eqn:Hh.
      * split; [reflexivity|].
        destruct (enabled (es_config_ (min_endstop_ ax2))
                  && getEndstopState (min_endstop_ ax2)) eqn:Hmin.
        -- left. apply andb_prop in Hmin as [-> ->].
           injection H as <-. now repeat split.
        -- right. split; [reflexivity|].
           destruct (enabled (es_config_ (max_endstop_ ax2))
                     && getEndstopState (max_endstop_ ax2)) eqn:Hmax;
             [|discriminate].
           apply andb_prop in Hmax as [-> ->].
           injection H as <-. now repeat split.
      * exfalso. destruct (_ || _); [destruct (finding_min_endstop ax2)|];
          discriminate.
      * exfalso. destruct (negb _); discriminate.
    + left. split; [reflexivity|]. now injection H as <-.
  - left. injection H as <-. now split.
Qed.

(** While homing or moving to zero a tick never asks to stop. *)
Lemma homing_tick_continues ax :
  homing_state_ ax <> HOMING_STATE_INACTIVE -> fst (homing_tick ax) = true.
Proof.
  intros Hh. unfold homing_tick.
  destruct (homing_state_ ax); [contradiction| |].
  - destruct (_ || _); [destruct (finding_min_endstop ax)|]; reflexivity.
  - destruct (negb _); reflexivity.
Qed.

(** X11.  When SensorlessControl is dispatched and returns, either the
    spin-up returned false and that is the handler's result, or the
    sensorless control loop ran: then the spin-up had returned true, with
    [error_] equal to [ERROR_NONE] and [vel_setpoint_] equal to
    [spin_up_target_vel]. *)
Theorem sensorless_control_entered_after_clean_spin_up tr ax status ax2 tr2 :
  current_state_ ax = AXIS_STATE_SENSORLESS_CONTROL ->
  dispatch tr ax = Done status ax2 tr2 ->
  (status = false /\ run_sensorless_spin_up tr ax = Done false ax2 tr2) \/
  (exists ax1 tr1,
     run_sensorless_spin_up tr ax = Done true ax1 tr1 /\
     error_ ax1 = ERROR_NONE /\
     vel_setpoint_ (controller_ ax1) = spin_up_target_vel (config_ ax1) /\
     run_sensorless_control_loop tr1 ax1 = Done status ax2 tr2).
Proof.
  intros Hcs. unfold dispatch. rewrite Hcs.
  destruct (run_sensorless_spin_up tr ax) as [st ax1 tr1|] eqn:Hs;
    [|discriminate].
  destruct st.
  - intros H. right. exists ax1, tr1. split; [reflexivity|].
    split; [|split; [|exact H]].
    + unfold run_sensorless_spin_up in Hs.
      destruct (run_control_loop spin_up_early_tick tr F32.zero ax)
        as [x a r|]; [|discriminate].
      destruct (negb _); [discriminate|].
      destruct (run_control_loop spin_up_late_tick r _ a) as [l a2 r2|];
        [|discriminate].
      injection Hs as Hc <- <-. unfold check_for_errors in Hc.
      now apply Z.eqb_eq in Hc.
    + unfold run_sensorless_spin_up in Hs.
      destruct (run_control_loop spin_up_early_tick tr F32.zero ax)
        as [x a r|]; [|discriminate].
      destruct (negb _); [discriminate|].
      destruct (run_control_loop spin_up_late_tick r _ a) as [l a2 r2|];
        [|discriminate].
      injection Hs as _ <- <-.
      now rewrite vel_setpoint_assigned, config_with_controller.
  - intros H. injection H as <- <- <-. now left.
Qed.

(** X16.  A sensorless tick asks to stop only if the control mode is
    position control or above (PosCtrlDuringSensorless is set and neither
    the controller nor the motor is updated), or the controller update
    failed (ControllerFailed is set), or the motor update failed. *)
Theorem sensorless_tick_failure ax ax' :
  sensorless_tick ax = (false, ax') ->
  (ctrl_mode_rank CTRL_MODE_POSITION_CONTROL
     <= ctrl_mode_rank (control_mode (controller_ ax)) /\
   ax' = or_error ERROR_POS_CTRL_DURING_SENSORLESS ax) \/
  (ctrl_mode_rank (control_mode (controller_ ax))
     < ctrl_mode_rank CTRL_MODE_POSITION_CONTROL /\
   exists ok current_setpoint ax1,
     controller_update (sl_pll_pos_ (sensorless_estimator_ ax))
                       (sl_vel_estimate_ (sensorless_estimator_ ax)) ax
       = (ok, current_setpoint, ax1) /\
     ((ok = false /\ ax' = or_error ERROR_CONTROLLER_FAILED ax1) \/
      (ok = true /\
       motor_update current_setpoint (sl_phase_ (sensorless_estimator_ ax1)) ax1
         = (false, ax')))).
Proof.
  unfold sensorless_tick.
  destruct (_ <=? _) eqn:Hmode; intros H.
  - left. apply Z.leb_le in Hmode. injection H as <-. now split.
  - right. apply Z.leb_gt in Hmode. split; [exact Hmode|].
    destruct (controller_update _ _ ax) as [[ok cs] ax1].
    exists ok, cs, ax1. split; [reflexivity|].
    destruct ok; simpl in H.
    + right. split; [reflexivity|].
      destruct (motor_update cs _ ax1) as [ok2 ax2].
      destruct ok2; simpl in H; [discriminate|]. now injection H as <-.
    + left. injection H as <-. now split.
Qed.

End HandlerProperties.

(** ** Safety checks *)

Section SafetyChecks.
Context {Input Periph : Type} {C : Collaborators Input Periph}.
Implicit Type ax : Axis Periph.

Lemma or_error_when_zero (c : bool) (e : Z) ax :
  e <> 0 ->
  (error_ (if c then or_error e ax else ax) = 0 <-> c = false /\ error_ ax = 0).
Proof.
  intros He. destruct c.
  - rewrite error_or_error, Z.lor_eq_0_iff. intuition congruence.
  - intuition.
Qed.

Lemma current_state_or_error_if (c : bool) (e : Z) ax :
  current_state_ (if c then or_error e ax else ax) = current_state_ ax.
Proof. destruct c; [|reflexivity]. now destruct ax. Qed.

Lemma motor_or_error_if (c : bool) (e : Z) ax :
  motor_ (if c then or_error e ax else ax) = motor_ ax.
Proof. destruct c; [|reflexivity]. now destruct ax. Qed.

(** X12.  With error codes that are non-zero bits, [ERROR_NONE] zero, and
    motor and encoder checks that report nothing, [do_checks] returns true
    exactly when no error was set on entry, the brake resistor is armed,
    the motor is not disarmed outside Idle, and the bus voltage compares
    within the trip levels (a NaN voltage fails both comparisons). *)
Theorem do_checks_passes_iff (i : Input) ax :
  ERROR_NONE = 0 ->
  ERROR_BRAKE_RESISTOR_DISARMED <> 0 ->
  ERROR_MOTOR_DISARMED <> 0 ->
  ERROR_DC_BUS_UNDER_VOLTAGE <> 0 ->
  ERROR_DC_BUS_OVER_VOLTAGE <> 0 ->
  (forall a : Axis Periph, error_ (motor_do_checks a) = error_ a) ->
  (forall a : Axis Periph, error_ (encoder_do_checks a) = error_ a) ->
  (fst (do_checks i ax) = true <->
   error_ ax = 0 /\
   brake_resistor_armed i = true /\
   (current_state_ ax = AXIS_STATE_IDLE \/
    armed_state_ (motor_ ax) <> ARMED_STATE_DISARMED) /\
   F32.leb dc_bus_undervoltage_trip_level (vbus_voltage i) = true /\
   F32.leb (vbus_voltage i) dc_bus_overvoltage_trip_level = true).
Proof.
  intros Hnone Hb Hm Hu Ho Hmc Hec.
  unfold do_checks, check_for_errors; simpl.
  rewrite Hnone, Z.eqb_eq, Hec, Hmc.
  rewrite (or_error_when_zero _ _ _ Ho), (or_error_when_zero _ _ _ Hu),
    (or_error_when_zero _ _ _ Hm), (or_error_when_zero _ _ _ Hb).
  rewrite current_state_or_error_if, motor_or_error_if.
  rewrite !negb_false_iff, andb_false_iff, negb_false_iff,
    bool_decide_eq_true, Z.eqb_neq.
  tauto.
Qed.

End SafetyChecks.

(** ** Advancing the task chain *)

Section ChainAdvance.
Context {Periph : Type}.
Implicit Type ax : Axis Periph.

Lemma iter_shift_left_length (k : nat) (tc : list State_t) :
  length (Nat.iter k shift_left tc) = length tc.
Proof.
  induction k as [|k IH]; simpl; [reflexivity|].
  now rewrite shift_left_length.
Qed.

Lemma shift_left_lookup_min (tc : list State_t) (i : nat) :
  (i < length tc)%nat ->
  shift_left tc !! i = tc !! Nat.min (S i) (length tc - 1).
Proof.
  intros Hi. destruct (decide (S i < length tc)%nat) as [Hlt | Hge].
  - rewrite shift_left_lookup by exact Hlt. f_equal. lia.
  - replace (Nat.min (S i) (length tc - 1)) with i by lia.
    apply shift_left_last. lia.
Qed.

Lemma iter_shift_left_lookup (k : nat) (tc : list State_t) (i : nat) :
  (i < length tc)%nat ->
  Nat.iter k shift_left tc !! i = tc !! Nat.min (i + k) (length tc - 1).
Proof.
  revert i. induction k as [|k IH]; intros i Hi; simpl.
  - f_equal. lia.
  - rewrite shift_left_lookup_min by now rewrite iter_shift_left_length.
    rewrite iter_shift_left_length.
    rewrite IH by lia. f_equal. lia.
Qed.

Lemma task_chain_iter_advance (k : nat) ax :
  task_chain_ (Nat.iter k (advance true) ax)
  = Nat.iter k shift_left (task_chain_ ax).
Proof.
  induction k as [|k IH]; simpl; [reflexivity|].
  unfold advance at 1; simpl.
  now rewrite task_chain_with_task_chain, IH.
Qed.

(** X13.  After [k] successful advances the entry at index [i] is the old
    entry at index [i + k], or the old last entry once [i + k] runs past
    the end: the chain saturates at its last entry instead of running out. *)
Theorem repeated_advance_saturates (k : nat) ax (i : nat) :
  (i < length (task_chain_ ax))%nat ->
  task_chain_ (Nat.iter k (advance true) ax) !! i
  = task_chain_ ax !! Nat.min (i + k) (length (task_chain_ ax) - 1).
Proof.
  intros Hi. rewrite task_chain_iter_advance.
  now apply iter_shift_left_lookup.
Qed.

End ChainAdvance.

(** ** Homing transitions *)

Section HomingTransitions.
Context {Input Periph : Type} {C : Collaborators Input Periph}.
Implicit Type ax : Axis Periph.

(** X14.  On the seek-min transition the encoder's shadow count is held in
    [min_endstop_.offset_from_home], the seek-max phase is flagged, and the
    new zero-velocity deadline is computed from the min endstop's
    [min_ms_homing] (not the max endstop's).  With the max endstop enabled
    the velocity integrator is zeroed and the homing speed commanded, and
    [homing_state_] stays Homing; without it the linear count is set to the
    min endstop's configured offset, position 0 is commanded and the phase
    becomes MoveToZero. *)
Theorem seek_min_transition ax :
  homing_state_ ax = HOMING_STATE_HOMING ->
  finding_min_endstop ax = true ->
  getEndstopState (min_endstop_ ax) || found_end ax = true ->
  exists ax1,
    offset_from_home (min_endstop_ ax1) = enc_shadow_count_ (encoder_ ax) /\
    finding_min_endstop ax1 = false /\
    loop_counter_check ax1
      = homing_deadline (loop_counter_ ax)
          (min_ms_homing (es_config_ (min_endstop_ ax))) /\
    homing_state_ ax1 = HOMING_STATE_HOMING /\
    ax1 = with_loop_counter_check (loop_counter_check ax1)
            (with_finding_min_endstop false
               (with_min_endstop (min_endstop_ ax1) ax)) /\
    homing_tick ax =
      (true,
       if enabled (es_config_ (max_endstop_ ax)) then
         controller_set_vel_setpoint (homing_speed (controller_ ax)) F32.zero
           (with_controller
              (with_vel_integrator_current F32.zero (controller_ ax1)) ax1)
       else
         with_homing_state HOMING_STATE_MOVE_TO_ZERO
           (controller_set_pos_setpoint F32.zero F32.zero F32.zero
              (encoder_set_linear_count
                 (offset (es_config_ (min_endstop_ ax))) ax1))).
Proof.
  intros Hh Hf He.
  exists (with_loop_counter_check
            (homing_deadline (loop_counter_ ax)
               (min_ms_homing (es_config_ (min_endstop_ ax))))
            (with_finding_min_endstop false
               (with_min_endstop
                  (with_offset_from_home (enc_shadow_count_ (encoder_ ax))
                                         (min_endstop_ ax)) ax))).
  repeat split; try (now destruct ax).
  unfold homing_tick. rewrite Hh. unfold current_endstop at 1.
  rewrite Hf, He. unfold homing_min_found, current_endstop. rewrite Hf.
  destruct ax as [? ? ? ? ? mn mx ? ? ? ? ? ? ? ? ?]; simpl.
  destruct (enabled (es_config_ mx)); reflexivity.
Qed.

(** X15.  On the seek-max transition with a home percentage that is not
    greater than zero (zero, negative or NaN),
    [min_endstop_.offset_from_home] becomes the min endstop's configured
    offset, [max_endstop_.offset_from_home] becomes [total_cpr] plus that
    offset, the linear count is set to the configured offset, position 0
    is commanded and the phase becomes MoveToZero. *)
Theorem seek_max_transition_plain ax :
  homing_state_ ax = HOMING_STATE_HOMING ->
  finding_min_endstop ax = false ->
  getEndstopState (max_endstop_ ax) || found_end ax = true ->
  F32.ltb F32.zero (home_percentage (es_config_ (min_endstop_ ax))) = false ->
  exists ax1,
    offset_from_home (min_endstop_ ax1) = offset (es_config_ (min_endstop_ ax)) /\
    offset_from_home (max_endstop_ ax1)
      = wrap_i32 (total_cpr ax + offset (es_config_ (min_endstop_ ax))) /\
    ax1 = with_max_endstop (max_endstop_ ax1)
            (with_min_endstop (min_endstop_ ax1) ax) /\
    homing_tick ax =
      (true,
       with_homing_state HOMING_STATE_MOVE_TO_ZERO
         (controller_set_pos_setpoint F32.zero F32.zero F32.zero
            (encoder_set_linear_count
               (offset (es_config_ (min_endstop_ ax))) ax1))).
Proof.
  intros Hh Hf He Hp.
  exists (with_max_endstop
            (with_offset_from_home
               (wrap_i32 (total_cpr ax + offset (es_config_ (min_endstop_ ax))))
               (max_endstop_ ax))
            (with_min_endstop
               (with_offset_from_home (offset (es_config_ (min_endstop_ ax)))
                                      (min_endstop_ ax)) ax)).
  repeat split; try (now destruct ax).
  unfold homing_tick. rewrite Hh. unfold current_endstop. rewrite Hf, He.
  unfold homing_max_found. rewrite Hp.
  destruct ax; reflexivity.
Qed.

End HomingTransitions.

(** ** The further properties on the bench *)

(** Facts about bench inputs hold by evaluation. *)
Ltac bench_fact :=
  first
    [ vm_compute; reflexivity
    | vm_compute; lia
    | vm_compute; discriminate
    | left; vm_compute; reflexivity
    | right; vm_compute; reflexivity
    | intros; reflexivity ].

Lemma load_task_chain_shape_witness :
  (requested_state_ (Bench.request_of AXIS_STATE_IDLE)
   ≠ AXIS_STATE_UNDEFINED)
  /\ ((7 <= length (task_chain_ (Bench.request_of AXIS_STATE_IDLE)))%nat)
  /\ (∃ pre : list State_t,
      task_chain_
        (load_task_chain (Bench.request_of AXIS_STATE_IDLE)) =
      pre ++
      AXIS_STATE_UNDEFINED
      :: drop (S (length pre))
           (task_chain_ (Bench.request_of AXIS_STATE_IDLE))
      ∧ (1 <= length pre <= 6)%nat
        ∧ last pre = Some AXIS_STATE_IDLE
          ∧ AXIS_STATE_UNDEFINED ∉ pre).
Proof.
  assert (h1 : requested_state_ (Bench.request_of AXIS_STATE_IDLE) ≠
    AXIS_STATE_UNDEFINED) by bench_fact.
  assert (h2 : (7 <= length (task_chain_ (Bench.request_of
    AXIS_STATE_IDLE)))%nat) by bench_fact.
  exact (conj h1 (conj h2 (load_task_chain_shape (Bench.request_of
    AXIS_STATE_IDLE) h1 h2))).
Defined.

Lemma load_startup_sequence_witness :
  (requested_state_ Bench.startup_request = AXIS_STATE_STARTUP_SEQUENCE)
  /\ ((7 <= length (task_chain_ Bench.startup_request))%nat)
  /\ (∃ pre : list State_t,
      task_chain_ (load_task_chain Bench.startup_request) =
      pre ++
      AXIS_STATE_UNDEFINED
      :: drop (S (length pre)) (task_chain_ Bench.startup_request)
      ∧ pre
        `sublist_of` [AXIS_STATE_MOTOR_CALIBRATION;
                      AXIS_STATE_ENCODER_INDEX_SEARCH;
                      AXIS_STATE_ENCODER_OFFSET_CALIBRATION;
                      AXIS_STATE_HOMING;
                      AXIS_STATE_CLOSED_LOOP_CONTROL;
                      AXIS_STATE_SENSORLESS_CONTROL; AXIS_STATE_IDLE]
        ∧ (AXIS_STATE_MOTOR_CALIBRATION ∈ pre
           ↔ startup_motor_calibration
               (config_ Bench.startup_request) =
             true)
          ∧ (AXIS_STATE_ENCODER_INDEX_SEARCH ∈ pre
             ↔ startup_encoder_index_search
                 (config_ Bench.startup_request) =
               true
               ∧ enc_use_index (encoder_ Bench.startup_request) =
                 true)
            ∧ (AXIS_STATE_ENCODER_OFFSET_CALIBRATION ∈ pre
               ↔ startup_encoder_offset_calibration
                   (config_ Bench.startup_request) =
                 true)
              ∧ (AXIS_STATE_HOMING ∈ pre
                 ↔ startup_closed_loop_control
                     (config_ Bench.startup_request) =
                   true
                   ∧ startup_homing (config_ Bench.startup_request) =
                     true)
                ∧ (AXIS_STATE_CLOSED_LOOP_CONTROL ∈ pre
                   ↔ startup_closed_loop_control
                       (config_ Bench.startup_request) =
                     true)
                  ∧ (AXIS_STATE_SENSORLESS_CONTROL ∈ pre
                     ↔ startup_closed_loop_control
                         (config_ Bench.startup_request) =
                       false
                       ∧ startup_sensorless_control
                           (config_ Bench.startup_request) =
                         true)
                    ∧ AXIS_STATE_IDLE ∈ pre).
Proof.
  assert (h1 : requested_state_ Bench.startup_request =
    AXIS_STATE_STARTUP_SEQUENCE) by bench_fact.
  assert (h2 : (7 <= length (task_chain_ Bench.startup_request))%nat) by
    bench_fact.
  exact (conj h1 (conj h2 (load_startup_sequence Bench.startup_request h1
    h2))).
Defined.

Lemma load_homing_request_witness :
  (requested_state_ (Bench.request_of AXIS_STATE_HOMING) =
   AXIS_STATE_HOMING)
  /\ ((4 <= length (task_chain_ (Bench.request_of AXIS_STATE_HOMING)))%nat)
  /\ (task_chain_
        (load_task_chain (Bench.request_of AXIS_STATE_HOMING)) =
      AXIS_STATE_HOMING
      :: AXIS_STATE_CLOSED_LOOP_CONTROL
         :: AXIS_STATE_IDLE
            :: AXIS_STATE_UNDEFINED
               :: drop 4
                    (task_chain_ (Bench.request_of AXIS_STATE_HOMING))).
Proof.
  assert (h1 : requested_state_ (Bench.request_of AXIS_STATE_HOMING) =
    AXIS_STATE_HOMING) by bench_fact.
  assert (h2 : (4 <= length (task_chain_ (Bench.request_of
    AXIS_STATE_HOMING)))%nat) by bench_fact.
  exact (conj h1 (conj h2 (load_homing_request (Bench.request_of
    AXIS_STATE_HOMING) h1 h2))).
Defined.

Lemma load_full_calibration_sequence_witness :
  (requested_state_
     (Bench.request_of AXIS_STATE_FULL_CALIBRATION_SEQUENCE) =
   AXIS_STATE_FULL_CALIBRATION_SEQUENCE)
  /\ ((5 <=
      length
        (task_chain_
           (Bench.request_of AXIS_STATE_FULL_CALIBRATION_SEQUENCE)))%nat)
  /\ (task_chain_
        (load_task_chain
           (Bench.request_of AXIS_STATE_FULL_CALIBRATION_SEQUENCE)) =
      (if
        enc_use_index
          (encoder_
             (Bench.request_of AXIS_STATE_FULL_CALIBRATION_SEQUENCE))
       then
        AXIS_STATE_MOTOR_CALIBRATION
        :: AXIS_STATE_ENCODER_INDEX_SEARCH
           :: AXIS_STATE_ENCODER_OFFSET_CALIBRATION
              :: AXIS_STATE_IDLE
                 :: AXIS_STATE_UNDEFINED
                    :: drop 5
                         (task_chain_
                            (Bench.request_of
                               AXIS_STATE_FULL_CALIBRATION_SEQUENCE))
       else
        AXIS_STATE_MOTOR_CALIBRATION
        :: AXIS_STATE_ENCODER_OFFSET_CALIBRATION
           :: AXIS_STATE_IDLE
              :: AXIS_STATE_UNDEFINED
                 :: drop 4
                      (task_chain_
                         (Bench.request_of
                            AXIS_STATE_FULL_CALIBRATION_SEQUENCE)))).
Proof.
  assert (h1 : requested_state_ (Bench.request_of
    AXIS_STATE_FULL_CALIBRATION_SEQUENCE) =
    AXIS_STATE_FULL_CALIBRATION_SEQUENCE) by bench_fact.
  assert (h2 : (5 <= length (task_chain_ (Bench.request_of
    AXIS_STATE_FULL_CALIBRATION_SEQUENCE)))%nat) by bench_fact.
  exact (conj h1 (conj h2 (load_full_calibration_sequence (Bench.request_of
    AXIS_STATE_FULL_CALIBRATION_SEQUENCE) h1 h2))).
Defined.

Lemma encoder_not_ready_falls_to_idle_witness :
  ((0 < length (task_chain_ Bench.not_ready_request))%nat)
  /\ (enc_is_ready_ (encoder_ Bench.not_ready_request) = false)
  /\ (state_rank AXIS_STATE_ENCODER_OFFSET_CALIBRATION <
      state_rank
        (current_state_ (load_task_chain Bench.not_ready_request)))
  /\ (current_state_
        (validate_state (load_task_chain Bench.not_ready_request)) =
      AXIS_STATE_UNDEFINED
      ∧ ∃ ax2 : Axis Bench.Periph,
          state_machine_iteration [Bench.cycle]
            Bench.not_ready_request =
          Done () ax2 [Bench.cycle]
          ∧ error_ ax2 =
            Z.lor (error_ (load_task_chain Bench.not_ready_request))
              ERROR_INVALID_STATE
            ∧ current_state_ ax2 = AXIS_STATE_IDLE
              ∧ ∀ i : nat,
                  (1 <= i)%nat
                  → task_chain_ ax2 !! i =
                    task_chain_
                      (load_task_chain Bench.not_ready_request)
                    !! i).
Proof.
  assert (h1 : (0 < length (task_chain_ Bench.not_ready_request))%nat) by
    bench_fact.
  assert (h2 : enc_is_ready_ (encoder_ Bench.not_ready_request) = false) by
    bench_fact.
  assert (h3 : state_rank AXIS_STATE_ENCODER_OFFSET_CALIBRATION < state_rank
    (current_state_ (load_task_chain Bench.not_ready_request))) by bench_fact.
  exact (conj h1 (conj h2 (conj h3 (encoder_not_ready_falls_to_idle
    [Bench.cycle] Bench.not_ready_request h1 h2 h3)))).
Defined.

Lemma no_handler_state_falls_to_idle_witness :
  ((0 < length (task_chain_ Bench.boot))%nat)
  /\ (current_state_ (load_task_chain Bench.boot) = AXIS_STATE_UNDEFINED
      ∨ current_state_ (load_task_chain Bench.boot) =
        AXIS_STATE_STARTUP_SEQUENCE
        ∨ current_state_ (load_task_chain Bench.boot) =
          AXIS_STATE_FULL_CALIBRATION_SEQUENCE)
  /\ (∃ ax2 : Axis Bench.Periph,
      state_machine_iteration [Bench.cycle] Bench.boot =
      Done () ax2 [Bench.cycle]
      ∧ error_ ax2 =
        Z.lor (error_ (load_task_chain Bench.boot))
          ERROR_INVALID_STATE
        ∧ current_state_ ax2 = AXIS_STATE_IDLE
          ∧ ∀ i : nat,
              (1 <= i)%nat
              → task_chain_ ax2 !! i =
                task_chain_ (load_task_chain Bench.boot) !! i).
Proof.
  assert (h1 : (0 < length (task_chain_ Bench.boot))%nat) by bench_fact.
  assert (h2 : current_state_ (load_task_chain Bench.boot) =
    AXIS_STATE_UNDEFINED ∨ current_state_ (load_task_chain Bench.boot) =
    AXIS_STATE_STARTUP_SEQUENCE ∨ current_state_ (load_task_chain Bench.boot)
    = AXIS_STATE_FULL_CALIBRATION_SEQUENCE) by bench_fact.
  exact (conj h1 (conj h2 (no_handler_state_falls_to_idle [Bench.cycle]
    Bench.boot h1 h2))).
Defined.

Lemma control_loop_exit_disables_step_dir_witness :
  (run_closed_loop_control_loop [Bench.brake_fault_cycle]
     (Bench.stepping F32.zero F32.one) =
   Done false
     (outcome_axis
        (run_closed_loop_control_loop [Bench.brake_fault_cycle]
           (Bench.stepping F32.zero F32.one)))
     []
   ∨ run_sensorless_control_loop [Bench.brake_fault_cycle]
       (Bench.stepping F32.zero F32.one) =
     Done false
       (outcome_axis
          (run_closed_loop_control_loop [Bench.brake_fault_cycle]
             (Bench.stepping F32.zero F32.one)))
       [])
  /\ (enable_step_dir_
        (outcome_axis
           (run_closed_loop_control_loop [Bench.brake_fault_cycle]
              (Bench.stepping F32.zero F32.one))) =
      false
      ∧ false =
        check_for_errors
          (outcome_axis
             (run_closed_loop_control_loop [Bench.brake_fault_cycle]
                (Bench.stepping F32.zero F32.one)))
        ∧ ∀ pin : GPIO_PinState,
            step_cb pin
              (outcome_axis
                 (run_closed_loop_control_loop [Bench.brake_fault_cycle]
                    (Bench.stepping F32.zero F32.one))) =
            outcome_axis
              (run_closed_loop_control_loop [Bench.brake_fault_cycle]
                 (Bench.stepping F32.zero F32.one))).
Proof.
  assert (h1 : run_closed_loop_control_loop [Bench.brake_fault_cycle]
    (Bench.stepping F32.zero F32.one) = Done false (outcome_axis
    (run_closed_loop_control_loop [Bench.brake_fault_cycle] (Bench.stepping
    F32.zero F32.one))) [] ∨ run_sensorless_control_loop
    [Bench.brake_fault_cycle] (Bench.stepping F32.zero F32.one) = Done false
    (outcome_axis (run_closed_loop_control_loop [Bench.brake_fault_cycle]
    (Bench.stepping F32.zero F32.one))) []) by bench_fact.
  exact (conj h1 (control_loop_exit_disables_step_dir
    [Bench.brake_fault_cycle] (Bench.stepping F32.zero F32.one) false
    (outcome_axis (run_closed_loop_control_loop [Bench.brake_fault_cycle]
    (Bench.stepping F32.zero F32.one))) [] h1)).
Defined.

Lemma closed_loop_tick_failure_witness :
  (closed_loop_tick Bench.min_pressed_outside_homing =
   (false,
    or_error ERROR_MIN_ENDSTOP_PRESSED Bench.min_pressed_outside_homing))
  /\ (∃ (ok : bool) (current_setpoint : float) (ax1 : Axis Bench.Periph),
      controller_update
        (enc_pos_estimate_ (encoder_ Bench.min_pressed_outside_homing))
        (enc_vel_estimate_ (encoder_ Bench.min_pressed_outside_homing))
        Bench.min_pressed_outside_homing =
      (ok, current_setpoint, ax1)
      ∧ (ok = false
         ∧ or_error ERROR_MIN_ENDSTOP_PRESSED
             Bench.min_pressed_outside_homing =
           or_error ERROR_CONTROLLER_FAILED ax1
         ∨ ok = true
           ∧ motor_update current_setpoint (enc_phase_ (encoder_ ax1))
               ax1 =
             (false,
              or_error ERROR_MIN_ENDSTOP_PRESSED
                Bench.min_pressed_outside_homing)
           ∨ ok = true
             ∧ ∃ ax2 : Axis Bench.Periph,
                 motor_update current_setpoint
                   (enc_phase_ (encoder_ ax1)) ax1 =
                 (true, ax2)
                 ∧ homing_state_ ax2 = HOMING_STATE_INACTIVE
                   ∧ (enabled (es_config_ (min_endstop_ ax2)) = true
                      ∧ getEndstopState (min_endstop_ ax2) = true
                        ∧ or_error ERROR_MIN_ENDSTOP_PRESSED
                            Bench.min_pressed_outside_homing =
                          or_error ERROR_MIN_ENDSTOP_PRESSED ax2
                      ∨ enabled (es_config_ (min_endstop_ ax2)) &&
                        getEndstopState (min_endstop_ ax2) = false
                        ∧ enabled (es_config_ (max_endstop_ ax2)) =
                          true
                          ∧ getEndstopState (max_endstop_ ax2) = true
                            ∧ or_error ERROR_MIN_ENDSTOP_PRESSED
                                Bench.min_pressed_outside_homing =
                              or_error ERROR_MAX_ENDSTOP_PRESSED ax2))).
Proof.
  assert (h1 : closed_loop_tick Bench.min_pressed_outside_homing = (false,
    or_error ERROR_MIN_ENDSTOP_PRESSED Bench.min_pressed_outside_homing)) by
    bench_fact.
  exact (conj h1 (closed_loop_tick_failure Bench.min_pressed_outside_homing
    (or_error ERROR_MIN_ENDSTOP_PRESSED Bench.min_pressed_outside_homing)
    h1)).
Defined.

Lemma sensorless_control_entered_after_clean_spin_up_witness :
  (current_state_ (Bench.spinning_up (F32.of_int 60)) =
   AXIS_STATE_SENSORLESS_CONTROL)
  /\ (dispatch (replicate 5 Bench.cycle)
        (Bench.spinning_up (F32.of_int 60)) =
      Done false
        (outcome_axis
           (dispatch (replicate 5 Bench.cycle)
              (Bench.spinning_up (F32.of_int 60))))
        [Bench.cycle])
  /\ (false = false
      ∧ run_sensorless_spin_up (replicate 5 Bench.cycle)
          (Bench.spinning_up (F32.of_int 60)) =
        Done false
          (outcome_axis
             (dispatch (replicate 5 Bench.cycle)
                (Bench.spinning_up (F32.of_int 60))))
          [Bench.cycle]
      ∨ ∃ (ax1 : Axis Bench.Periph) (tr1 : list Bench.Input),
          run_sensorless_spin_up (replicate 5 Bench.cycle)
            (Bench.spinning_up (F32.of_int 60)) =
          Done true ax1 tr1
          ∧ error_ ax1 = ERROR_NONE
            ∧ vel_setpoint_ (controller_ ax1) =
              spin_up_target_vel (config_ ax1)
              ∧ run_sensorless_control_loop tr1 ax1 =
                Done false
                  (outcome_axis
                     (dispatch (replicate 5 Bench.cycle)
                        (Bench.spinning_up (F32.of_int 60))))
                  [Bench.cycle]).
Proof.
  assert (h1 : current_state_ (Bench.spinning_up (F32.of_int 60)) =
    AXIS_STATE_SENSORLESS_CONTROL) by bench_fact.
  assert (h2 : dispatch (replicate 5 Bench.cycle) (Bench.spinning_up
    (F32.of_int 60)) = Done false (outcome_axis (dispatch (replicate 5
    Bench.cycle) (Bench.spinning_up (F32.of_int 60)))) [Bench.cycle]) by
    bench_fact.
  exact (conj h1 (conj h2 (sensorless_control_entered_after_clean_spin_up
    (replicate 5 Bench.cycle) (Bench.spinning_up (F32.of_int 60)) false
    (outcome_axis (dispatch (replicate 5 Bench.cycle) (Bench.spinning_up
    (F32.of_int 60)))) [Bench.cycle] h1 h2))).
Defined.

Lemma do_checks_passes_iff_witness :
  (ERROR_NONE = 0)
  /\ (ERROR_BRAKE_RESISTOR_DISARMED ≠ 0)
  /\ (ERROR_MOTOR_DISARMED ≠ 0)
  /\ (ERROR_DC_BUS_UNDER_VOLTAGE ≠ 0)
  /\ (ERROR_DC_BUS_OVER_VOLTAGE ≠ 0)
  /\ ((∀ a : Axis Bench.Periph,
      error_ (motor_do_checks a) = error_ a))
  /\ ((∀ a : Axis Bench.Periph,
      error_ (encoder_do_checks a) = error_ a))
  /\ ((do_checks Bench.cycle
         (Bench.running AXIS_STATE_CLOSED_LOOP_CONTROL)).1 =
      true
      ↔ error_
          (Bench.running AXIS_STATE_CLOSED_LOOP_CONTROL) =
        0
        ∧ brake_resistor_armed Bench.cycle = true
          ∧ (current_state_
               (Bench.running AXIS_STATE_CLOSED_LOOP_CONTROL) =
             AXIS_STATE_IDLE
             ∨ armed_state_
                 (motor_
                    (Bench.running
                       AXIS_STATE_CLOSED_LOOP_CONTROL))
               ≠ ARMED_STATE_DISARMED)
            ∧ F32.leb dc_bus_undervoltage_trip_level
                (vbus_voltage Bench.cycle) =
              true
              ∧ F32.leb (vbus_voltage Bench.cycle)
                  dc_bus_overvoltage_trip_level =
                true).
Proof.
  assert (h1 : ERROR_NONE = 0) by bench_fact.
  assert (h2 : ERROR_BRAKE_RESISTOR_DISARMED ≠ 0) by bench_fact.
  assert (h3 : ERROR_MOTOR_DISARMED ≠ 0) by bench_fact.
  assert (h4 : ERROR_DC_BUS_UNDER_VOLTAGE ≠ 0) by bench_fact.
  assert (h5 : ERROR_DC_BUS_OVER_VOLTAGE ≠ 0) by bench_fact.
  assert (h6 : (∀ a : Axis Bench.Periph, error_ (motor_do_checks a) = error_
    a)) by bench_fact.
  assert (h7 : (∀ a : Axis Bench.Periph, error_ (encoder_do_checks a) = error_
    a)) by bench_fact.
  exact (conj h1 (conj h2 (conj h3 (conj h4 (conj h5 (conj h6 (conj h7
    (do_checks_passes_iff Bench.cycle (Bench.running
    AXIS_STATE_CLOSED_LOOP_CONTROL) h1 h2 h3 h4 h5 h6 h7)))))))).
Defined.

Lemma repeated_advance_saturates_witness :
  ((0 <
   length (task_chain_ (Bench.running AXIS_STATE_CLOSED_LOOP_CONTROL)))%nat)
  /\ (task_chain_
        (Nat.iter 2 (advance true)
           (Bench.running AXIS_STATE_CLOSED_LOOP_CONTROL))
      !! 0%nat =
      task_chain_ (Bench.running AXIS_STATE_CLOSED_LOOP_CONTROL)
      !! ((0 + 2)
          `min` (length
                   (task_chain_
                      (Bench.running AXIS_STATE_CLOSED_LOOP_CONTROL)) -
                 1))%nat).
Proof.
  assert (h1 : (0 < length (task_chain_ (Bench.running
    AXIS_STATE_CLOSED_LOOP_CONTROL)))%nat) by bench_fact.
  exact (conj h1 (repeated_advance_saturates 2 (Bench.running
    AXIS_STATE_CLOSED_LOOP_CONTROL) 0 h1)).
Defined.

Lemma seek_min_transition_witness :
  (homing_state_ (Bench.homing 1 F32.zero) = HOMING_STATE_HOMING)
  /\ (finding_min_endstop (Bench.homing 1 F32.zero) = true)
  /\ (getEndstopState (min_endstop_ (Bench.homing 1 F32.zero))
      || found_end (Bench.homing 1 F32.zero) = true)
  /\ (∃ ax1 : Axis Bench.Periph,
      offset_from_home (min_endstop_ ax1) =
      enc_shadow_count_ (encoder_ (Bench.homing 1 F32.zero))
      ∧ finding_min_endstop ax1 = false
        ∧ loop_counter_check ax1 =
          homing_deadline
            (loop_counter_ (Bench.homing 1 F32.zero))
            (min_ms_homing
               (es_config_
                  (min_endstop_ (Bench.homing 1 F32.zero))))
          ∧ homing_state_ ax1 = HOMING_STATE_HOMING
            ∧ ax1 =
              with_loop_counter_check (loop_counter_check ax1)
                (with_finding_min_endstop false
                   (with_min_endstop (min_endstop_ ax1)
                      (Bench.homing 1 F32.zero)))
              ∧ homing_tick (Bench.homing 1 F32.zero) =
                (true,
                 if
                  enabled
                    (es_config_
                       (max_endstop_ (Bench.homing 1 F32.zero)))
                 then
                  controller_set_vel_setpoint
                    (homing_speed
                       (controller_ (Bench.homing 1 F32.zero)))
                    F32.zero
                    (with_controller
                       (with_vel_integrator_current F32.zero
                          (controller_ ax1))
                       ax1)
                 else
                  with_homing_state HOMING_STATE_MOVE_TO_ZERO
                    (controller_set_pos_setpoint F32.zero F32.zero
                       F32.zero
                       (encoder_set_linear_count
                          (offset
                             (es_config_
                                (min_endstop_
                                   (Bench.homing 1 F32.zero))))
                          ax1)))).
Proof.
  assert (h1 : homing_state_ (Bench.homing 1 F32.zero) = HOMING_STATE_HOMING)
    by bench_fact.
  assert (h2 : finding_min_endstop (Bench.homing 1 F32.zero) = true) by
    bench_fact.
  assert (h3 : getEndstopState (min_endstop_ (Bench.homing 1 F32.zero)) ||
    found_end (Bench.homing 1 F32.zero) = true) by bench_fact.
  exact (conj h1 (conj h2 (conj h3 (seek_min_transition (Bench.homing 1
    F32.zero) h1 h2 h3)))).
Defined.

Lemma seek_max_transition_plain_witness :
  (homing_state_ (Bench.seeking_max 8192 0 F32.zero) =
   HOMING_STATE_HOMING)
  /\ (finding_min_endstop (Bench.seeking_max 8192 0 F32.zero) = false)
  /\ (getEndstopState
        (max_endstop_ (Bench.seeking_max 8192 0 F32.zero))
      || found_end (Bench.seeking_max 8192 0 F32.zero) = true)
  /\ (F32.ltb F32.zero
        (home_percentage
           (es_config_
              (min_endstop_ (Bench.seeking_max 8192 0 F32.zero)))) =
      false)
  /\ (∃ ax1 : Axis Bench.Periph,
      offset_from_home (min_endstop_ ax1) =
      offset
        (es_config_
           (min_endstop_ (Bench.seeking_max 8192 0 F32.zero)))
      ∧ offset_from_home (max_endstop_ ax1) =
        wrap_i32
          (total_cpr (Bench.seeking_max 8192 0 F32.zero) +
           offset
             (es_config_
                (min_endstop_
                   (Bench.seeking_max 8192 0 F32.zero))))
        ∧ ax1 =
          with_max_endstop (max_endstop_ ax1)
            (with_min_endstop (min_endstop_ ax1)
               (Bench.seeking_max 8192 0 F32.zero))
          ∧ homing_tick (Bench.seeking_max 8192 0 F32.zero) =
            (true,
             with_homing_state HOMING_STATE_MOVE_TO_ZERO
               (controller_set_pos_setpoint F32.zero F32.zero
                  F32.zero
                  (encoder_set_linear_count
                     (offset
                        (es_config_
                           (min_endstop_
                              (Bench.seeking_max 8192 0 F32.zero))))
                     ax1)))).
Proof.
  assert (h1 : homing_state_ (Bench.seeking_max 8192 0 F32.zero) =
    HOMING_STATE_HOMING) by bench_fact.
  assert (h2 : finding_min_endstop (Bench.seeking_max 8192 0 F32.zero) =
    false) by bench_fact.
  assert (h3 : getEndstopState (max_endstop_ (Bench.seeking_max 8192 0
    F32.zero)) || found_end (Bench.seeking_max 8192 0 F32.zero) = true) by
    bench_fact.
  assert (h4 : F32.ltb F32.zero (home_percentage (es_config_ (min_endstop_
    (Bench.seeking_max 8192 0 F32.zero)))) = false) by bench_fact.
  exact (conj h1 (conj h2 (conj h3 (conj h4 (seek_max_transition_plain
    (Bench.seeking_max 8192 0 F32.zero) h1 h2 h3 h4))))).
Defined.

Lemma sensorless_tick_failure_witness :
  (sensorless_tick (Bench.spinning_up (F32.of_int 60)) =
   (false,
    or_error ERROR_POS_CTRL_DURING_SENSORLESS
      (Bench.spinning_up (F32.of_int 60))))
  /\ (ctrl_mode_rank CTRL_MODE_POSITION_CONTROL
      ≤ ctrl_mode_rank
          (control_mode
             (controller_ (Bench.spinning_up (F32.of_int 60))))
      ∧ or_error ERROR_POS_CTRL_DURING_SENSORLESS
          (Bench.spinning_up (F32.of_int 60)) =
        or_error ERROR_POS_CTRL_DURING_SENSORLESS
          (Bench.spinning_up (F32.of_int 60))
      ∨ ctrl_mode_rank
          (control_mode
             (controller_ (Bench.spinning_up (F32.of_int 60)))) <
        ctrl_mode_rank CTRL_MODE_POSITION_CONTROL
        ∧ ∃ (ok : bool) (current_setpoint : float)
            (ax1 : Axis Bench.Periph),
            controller_update
              (sl_pll_pos_
                 (sensorless_estimator_
                    (Bench.spinning_up (F32.of_int 60))))
              (sl_vel_estimate_
                 (sensorless_estimator_
                    (Bench.spinning_up (F32.of_int 60))))
              (Bench.spinning_up (F32.of_int 60)) =
            (ok, current_setpoint, ax1)
            ∧ (ok = false
               ∧ or_error ERROR_POS_CTRL_DURING_SENSORLESS
                   (Bench.spinning_up (F32.of_int 60)) =
                 or_error ERROR_CONTROLLER_FAILED ax1
               ∨ ok = true
                 ∧ motor_update current_setpoint
                     (sl_phase_ (sensorless_estimator_ ax1)) ax1 =
                   (false,
                    or_error ERROR_POS_CTRL_DURING_SENSORLESS
                      (Bench.spinning_up (F32.of_int 60))))).
Proof.
  assert (h1 : sensorless_tick (Bench.spinning_up (F32.of_int 60)) = (false,
    or_error ERROR_POS_CTRL_DURING_SENSORLESS (Bench.spinning_up (F32.of_int
    60)))) by bench_fact.
  exact (conj h1 (sensorless_tick_failure (Bench.spinning_up (F32.of_int 60))
    (or_error ERROR_POS_CTRL_DURING_SENSORLESS (Bench.spinning_up (F32.of_int
    60))) h1)).
Defined.

Lemma homing_request_runs_home_axis_witness :
  (requested_state_ Bench.homing_request = AXIS_STATE_HOMING)
  /\ ((4 <= length (task_chain_ Bench.homing_request))%nat)
  /\ (is_calibrated_ (motor_ Bench.homing_request) = true)
  /\ (enc_is_ready_ (encoder_ Bench.homing_request) = true)
  /\ (dispatch [Bench.cycle]
        (validate_state (load_task_chain Bench.homing_request)) =
      controller_home_axis [Bench.cycle]
        (load_task_chain Bench.homing_request)
      ∧ ∀ (ax1 : Axis Bench.Periph) (tr1 : list Bench.Input),
          controller_home_axis [Bench.cycle]
            (load_task_chain Bench.homing_request) =
          Done true ax1 tr1
          → task_chain_ ax1 =
            task_chain_ (load_task_chain Bench.homing_request)
            → ∃ ax2 : Axis Bench.Periph,
                state_machine_iteration [Bench.cycle]
                  Bench.homing_request =
                Done () ax2 tr1
                ∧ current_state_ ax2 =
                  AXIS_STATE_CLOSED_LOOP_CONTROL
                  ∧ take 3 (task_chain_ ax2) =
                    [AXIS_STATE_CLOSED_LOOP_CONTROL;
                     AXIS_STATE_IDLE; AXIS_STATE_UNDEFINED]).
Proof.
  assert (h1 : requested_state_ Bench.homing_request = AXIS_STATE_HOMING) by
    bench_fact.
  assert (h2 : (4 <= length (task_chain_ Bench.homing_request))%nat) by
    bench_fact.
  assert (h3 : is_calibrated_ (motor_ Bench.homing_request) = true) by
    bench_fact.
  assert (h4 : enc_is_ready_ (encoder_ Bench.homing_request) = true) by
    bench_fact.
  exact (conj h1 (conj h2 (conj h3 (conj h4 (homing_request_runs_home_axis
    [Bench.cycle] Bench.homing_request h1 h2 h3 h4))))).
Defined.
